(** * Account REST API service: a shallow embedding of [service/routes.py]

    The request router of the Account microservice is embedded as a set
    of handler functions in a small reader/state/writer/error monad:

    - the reader part is Flask's request context (the global [request]
      the handlers consult) together with the wall-clock date;
    - the state part is the durable store of Account records;
    - the writer part is a log of the model-layer work a computation
      performed (deserialisation and the five persistence operations);
    - the error part is a raised Python exception ([abort(...)], a
      validation error, or any other exception).

    [service/routes.py] is embedded definition by definition.  The
    entity model ([service/models.py]), the error handlers
    ([service/common/error_handlers.py]) and the web framework are not
    part of the sources at hand; they are modelled from the written
    specification and marked as such. *)

From Stdlib Require Import ZArith String Ascii List Lia DecimalString.
From stdpp Require Import base tactics option list.
Import ListNotations.
Local Open Scope string_scope.
Local Open Scope list_scope.
Local Open Scope Z_scope.
#[local] Set Warnings "-register-all".

(** ** Wire values *)

(** Structured text payloads (the result of [request.get_json()], the
    argument of [jsonify]).  An object is an association list read with
    first-match lookup, as a Python [dict] literal would be. *)
Inductive json : Type :=
| JNull
| JBool (b : bool)
| JNum (n : Z)
| JStr (s : string)
| JArr (items : list json)
| JObj (fields : list (string * json)).

Fixpoint dict_get (key : string) (fields : list (string * json)) : option json :=
  match fields with
  | [] => None
  | (k, v) :: rest => if String.eqb k key then Some v else dict_get key rest
  end.

(** [str(n)] for an integer, as used by the f-strings of the routes. *)
Definition str_of_int (n : Z) : string :=
  NilZero.string_of_int (Z.to_int n).

(** ** Python exceptions that can leave a handler *)

Inductive exn : Type :=
| HTTPException (code : Z) (description : string)   (* flask.abort(code, description) *)
| DataValidationError (message : string)            (* raised by the entity model *)
| PyError (kind message : string).                  (* any other exception, e.g. TypeError *)

(** ** The request context *)

(** The verbs of the route table, [HEAD] and [OPTIONS], which the
    framework adds to the rules by itself, and [PATCH] for a verb that
    no rule carries. *)
Inductive method : Type := GET | POST | PUT | DELETE | PATCH | HEAD | OPTIONS.

Definition method_eqb (a b : method) : bool :=
  match a, b with
  | GET, GET | POST, POST | PUT, PUT | DELETE, DELETE | PATCH, PATCH
  | HEAD, HEAD | OPTIONS, OPTIONS => true
  | _, _ => false
  end.

(** A request as the handlers see it.  [req_path] is the URL path,
    percent-decoded and split at its slashes (["/accounts/7"] is
    [["accounts"; "7"]], ["/"] is [[]]), so a segment holds no slash;
    [req_content_type] is [request.headers.get("Content-Type")];
    [req_json] is the body read as JSON, [None] standing for a body that
    is absent or is not JSON text. *)
Record Request : Type := mkRequest {
  req_method : method;
  req_path : list string;
  req_content_type : option string;
  req_json : option json
}.

Record ctx : Type := mkCtx {
  request : Request;
  today : string              (* date.today().isoformat() *)
}.

(** ** Header text

    A header value is a text of one-byte characters; [request.mimetype]
    is the part before the first [;], stripped of surrounding white
    space and lower-cased, and [request.is_json] tests it. *)

Definition byte (c : ascii) : Z := Z.of_nat (nat_of_ascii c).

(** [str.isspace] on a one-byte character. *)
Definition is_space (c : ascii) : bool :=
  let b := byte c in
  ((9 <=? b) && (b <=? 13)) || ((28 <=? b) && (b <=? 32))
  || (b =? 133) || (b =? 160).

(** [str.lower] on a one-byte character, as far as it can matter for a
    comparison with lower-case ASCII text. *)
Definition lower (c : ascii) : ascii :=
  let b := byte c in
  if (65 <=? b) && (b <=? 90) then ascii_of_nat (nat_of_ascii c + 32) else c.

Fixpoint before_semicolon (l : list ascii) : list ascii :=
  match l with
  | [] => []
  | c :: rest => if Ascii.eqb c ";" then [] else c :: before_semicolon rest
  end.

Fixpoint lstrip (l : list ascii) : list ascii :=
  match l with
  | c :: rest => if is_space c then lstrip rest else l
  | [] => []
  end.

Definition strip (l : list ascii) : list ascii :=
  rev (lstrip (rev (lstrip l))).

Fixpoint starts_with (p l : list ascii) : bool :=
  match p, l with
  | [], _ => true
  | a :: p', b :: l' => Ascii.eqb a b && starts_with p' l'
  | _ :: _, [] => false
  end.

Definition ends_with (p l : list ascii) : bool :=
  starts_with (rev p) (rev l).

(** [request.mimetype] *)
Definition mimetype (content_type : option string) : list ascii :=
  match content_type with
  | Some v => map lower (strip (before_semicolon (list_ascii_of_string v)))
  | None => []
  end.

(** [request.is_json] *)
Definition is_json (content_type : option string) : bool :=
  let mt := mimetype content_type in
  String.eqb (string_of_list_ascii mt) "application/json"
  || (starts_with (list_ascii_of_string "application/") mt
      && ends_with (list_ascii_of_string "+json") mt).

(** ** The entity and the durable store *)

Module Account.

(** The Account record of specification section 3.  [id] is [None] on
    a transient instance and assigned by the store at creation. *)
Record t : Type := mk {
  id : option Z;
  name : string;
  email : string;
  address : string;
  phone_number : string;
  date_joined : string      (* ISO-8601 calendar date *)
}.

(** [Account()] *)
Definition new : t := mk None "" "" "" "" "".

End Account.

Record store : Type := mkStore {
  rows : list Account.t;      (* persisted records, in insertion order *)
  next_id : Z                 (* the store's identifier sequence *)
}.

(** Model-layer work, in the order it happened. *)
Inductive event : Type :=
| EvDeserialize               (* Account.deserialize was entered *)
| EvInsert (i : Z)            (* store insert(record) -> assigned id *)
| EvGet (i : Z)               (* store get(id) *)
| EvListAll                   (* store list_all() *)
| EvUpdate (i : Z)            (* store update(record) *)
| EvDelete (i : Z).           (* store delete(id) *)

Definition is_mutation (e : event) : bool :=
  match e with
  | EvInsert _ | EvUpdate _ | EvDelete _ => true
  | EvDeserialize | EvGet _ | EvListAll => false
  end.

(** Number of store mutations a log records. *)
Definition mutations (log : list event) : nat :=
  length (filter (fun e => is_mutation e = true) log).

(** ** The handler monad *)

Definition M (A : Type) : Type :=
  ctx -> store -> (exn + A) * store * list event.

Definition ret {A} (a : A) : M A := fun _ s => (inr a, s, []).

Definition bind {A B} (m : M A) (k : A -> M B) : M B :=
  fun c s =>
    match m c s with
    | (inl e, s1, l1) => (inl e, s1, l1)
    | (inr a, s1, l1) =>
        match k a c s1 with
        | (r, s2, l2) => (r, s2, l1 ++ l2)
        end
    end.

#[global] Instance M_ret : MRet M := @ret.
#[global] Instance M_bind : MBind M := fun A B k m => bind m k.

Definition raise {A} (e : exn) : M A := fun _ s => (inl e, s, []).
Definition ask_request : M Request := fun c s => (inr (request c), s, []).
Definition ask_today : M string := fun c s => (inr (today c), s, []).
Definition get_store : M store := fun _ s => (inr s, s, []).
Definition put_store (s' : store) : M unit := fun _ _ => (inr tt, s', []).
Definition tell (e : event) : M unit := fun _ s => (inr tt, s, [e]).

(** [flask.abort] *)
Definition abort {A} (code : Z) (description : string) : M A :=
  raise (HTTPException code description).

(** [request.get_json()]: the request must declare a JSON media type and
    its body must be JSON text; the value read is returned, JSON [null]
    being Python's [None].  A request that declares another media type
    is refused with 415 (with 400 by the framework's releases 2.1 and
    2.2, and read as [None] by earlier ones); a body that is absent or
    is not JSON text is refused with 400. *)
Definition get_json : M (option json) :=
  r ← ask_request;
  if is_json (req_content_type r) then
    match req_json r with
    | Some v => mret (Some v)
    | None =>
        abort 400 "The browser (or proxy) sent a request that this server could not understand."
    end
  else
    abort 415 "Did not attempt to load JSON data because the request Content-Type was not 'application/json'.".

(** The two exceptions [get_json] raises. *)
Definition bad_request : exn :=
  HTTPException 400
    "The browser (or proxy) sent a request that this server could not understand.".

Definition not_json : exn :=
  HTTPException 415
    "Did not attempt to load JSON data because the request Content-Type was not 'application/json'.".

(** ** Entity model

    [service/models.py] is not among the sources; the operations below
    follow sections 3, 4.1 and 6 of the specification. *)

Module AccountModel.
Import Account.

(** Modelled from the spec: the value-kind check of [deserialize] for a
    required text field ("fails with a ValidationError when a required
    field is absent ... or when a field has the wrong value kind");
    [models.py] is missing. *)
Definition required_text (key : string) (fields : list (string * json)) : exn + string :=
  match dict_get key fields with
  | Some (JStr v) => inr v
  | Some _ => inl (DataValidationError ("Invalid Account: bad value for " ++ key)%string)
  | None => inl (DataValidationError ("Invalid Account: missing " ++ key)%string)
  end.

Definition is_digit (c : ascii) : bool :=
  (48 <=? nat_of_ascii c)%nat && (nat_of_ascii c <=? 57)%nat.

(** Modelled from the spec: the shape [YYYY-MM-DD] of an ISO-8601
    calendar date (section 6); [models.py] is missing. *)
Definition is_iso_date (d : string) : bool :=
  match list_ascii_of_string d with
  | [y1; y2; y3; y4; d1; m1; m2; d2; a1; a2] =>
      forallb is_digit [y1; y2; y3; y4; m1; m2; a1; a2]
      && Ascii.eqb d1 "-" && Ascii.eqb d2 "-"
  | _ => false
  end.

(** Modelled from the spec: "date_joined is parsed if present, else
    defaults to today at creation time"; [models.py] is missing.  A
    value that is not an ISO date text counts as a wrong value kind. *)
Definition parse_date_joined (now : string) (fields : list (string * json)) : exn + string :=
  match dict_get "date_joined" fields with
  | None | Some JNull => inr now
  | Some (JStr d) =>
      if is_iso_date d then inr d
      else inl (DataValidationError "Invalid Account: bad value for date_joined")
  | Some _ => inl (DataValidationError "Invalid Account: bad value for date_joined")
  end.

(** Modelled from the spec: the validation and field assignment of
    [Account.deserialize(payload)] (section 4.1); [models.py] is
    missing.  [self] keeps its [id]. *)
Definition parse (now : string) (self : t) (data : option json) : exn + t :=
  match data with
  | Some (JObj fields) =>
      match required_text "name" fields with
      | inl e => inl e
      | inr n =>
      match required_text "email" fields with
      | inl e => inl e
      | inr m =>
      match required_text "address" fields with
      | inl e => inl e
      | inr a =>
      match required_text "phone_number" fields with
      | inl e => inl e
      | inr p =>
      match parse_date_joined now fields with
      | inl e => inl e
      | inr d => inr (mk (id self) n m a p d)
      end end end end end
  | _ => inl (DataValidationError "Invalid Account: body of request contained bad or no data")
  end.

(** Modelled from the spec: [Account.deserialize(payload)]; [models.py]
    is missing. *)
Definition deserialize (self : t) (data : option json) : M t :=
  tell EvDeserialize;;
  now ← ask_today;
  match parse now self data with
  | inl e => raise e
  | inr a => mret a
  end.

(** Modelled from the spec: [Account.serialize()], "a mapping of all
    attributes including id" (sections 4.1 and 6); [models.py] is
    missing. *)
Definition serialize (self : t) : json :=
  JObj [ ("id", match id self with Some i => JNum i | None => JNull end);
         ("name", JStr (name self));
         ("email", JStr (email self));
         ("address", JStr (address self));
         ("phone_number", JStr (phone_number self));
         ("date_joined", JStr (date_joined self)) ].

Definition with_id (i : Z) (self : t) : t :=
  mk (Some i) (name self) (email self) (address self) (phone_number self) (date_joined self).

Definition has_id (i : Z) (a : t) : bool :=
  match id a with
  | Some j => Z.eqb i j
  | None => false
  end.

(** Modelled from the spec: [Account.create()], the store "generates a
    new unique id and persists the record" (sections 4.1 and 6,
    [insert(record) -> assigned_id]); [models.py] is missing.  Store
    outages ([PersistenceError]) are outside the model. *)
Definition create (self : t) : M t :=
  s ← get_store;
  let i := next_id s in
  let saved := with_id i self in
  put_store (mkStore (rows s ++ [saved]) (i + 1));;
  tell (EvInsert i);;
  mret saved.

Definition lookup_row (i : Z) (l : list t) : option t :=
  List.find (has_id i) l.

(** Modelled from the spec: [Account.find(id)], "returns the Account
    matching id, or a distinguished absence value" (section 4.1);
    [models.py] is missing. *)
Definition find (i : Z) : M (option t) :=
  s ← get_store;
  tell (EvGet i);;
  mret (lookup_row i (rows s)).

(** Modelled from the spec: [Account.all()], "the complete ordered
    sequence of persisted Accounts" (section 4.1); [models.py] is
    missing. *)
Definition all : M (list t) :=
  s ← get_store;
  tell EvListAll;;
  mret (rows s).

Definition replace_row (a : t) (l : list t) : list t :=
  match id a with
  | Some i => map (fun r => if has_id i r then a else r) l
  | None => l
  end.

(** Modelled from the spec: [Account.update(payload)], "overwrites
    mutable fields on an already-persisted instance from payload, then
    persists the change"; [id] and [date_joined] are kept; calling it
    on a transient instance is a fatal programming error (sections 3
    and 4.1); [models.py] is missing. *)
Definition update (self : t) (data : option json) : M t :=
  match id self with
  | None => raise (PyError "RuntimeError" "update called on a transient Account")
  | Some i =>
      now ← ask_today;
      match parse now self data with
      | inl e => raise e
      | inr a =>
          let changed := mk (id self) (name a) (email a) (address a)
                            (phone_number a) (date_joined self) in
          s ← get_store;
          put_store (mkStore (replace_row changed (rows s)) (next_id s));;
          tell (EvUpdate i);;
          mret changed
      end
  end.

Definition remove_row (i : Z) (l : list t) : list t :=
  List.filter (fun r => negb (has_id i r)) l.

(** Modelled from the spec: [Account.delete()], "removes the record
    matching this instance's id from the store if present; removing an
    absent record is a silent success" (section 4.1); [models.py] is
    missing. *)
Definition delete (self : t) : M unit :=
  match id self with
  | None => mret tt
  | Some i =>
      s ← get_store;
      put_store (mkStore (remove_row i (rows s)) (next_id s));;
      tell (EvDelete i)
  end.

End AccountModel.

(** ** Responses and status codes *)

Inductive body : Type :=
| BodyJson (j : json)
| BodyText (s : string).

(** [headers] holds the headers a handler sets itself; those the
    framework adds to every response (Content-Type, Content-Length,
    Allow) are left out. *)
Record Response : Type := mkResponse {
  status_code : Z;
  data : body;
  headers : list (string * string)
}.

(** [service.common.status] and [http.HTTPStatus]: the numeric codes. *)
Module status.
Definition HTTP_200_OK : Z := 200.
Definition HTTP_201_CREATED : Z := 201.
Definition HTTP_400_BAD_REQUEST : Z := 400.
Definition HTTP_404_NOT_FOUND : Z := 404.
Definition HTTP_405_METHOD_NOT_ALLOWED : Z := 405.
Definition HTTP_415_UNSUPPORTED_MEDIA_TYPE : Z := 415.
Definition HTTP_500_INTERNAL_SERVER_ERROR : Z := 500.
End status.

Module HTTPStatus.
Definition OK : Z := 200.
Definition NO_CONTENT : Z := 204.
Definition NOT_FOUND : Z := 404.
End HTTPStatus.

Definition jsonify (j : json) : body := BodyJson j.

Definition make_response (b : body) (code : Z) (h : list (string * string)) : Response :=
  mkResponse code b h.

(** ** [service/routes.py]

    The handlers, in the order of the file.  Calls of [app.logger] have
    no effect on the response or the store and are left out.  A method
    that changes its object in place ([account.deserialize(...)],
    [account.update(...)], [account.create()]) is written as a rebinding
    of [account]. *)

Module routes.

(** Python truthiness of [request.headers.get(...)]: [None] and the
    empty text are false. *)
Definition truthy (o : option string) : bool :=
  match o with
  | Some v => negb (String.eqb v "")
  | None => false
  end.

Definition eq_text (o : option string) (v : string) : bool :=
  match o with
  | Some w => String.eqb w v
  | None => false
  end.

(** [def health()] *)
Definition health : M Response :=
  mret (mkResponse status.HTTP_200_OK (jsonify (JObj [("status", JStr "OK")])) []).

(** [def index()] *)
Definition index : M Response :=
  mret (mkResponse status.HTTP_200_OK
          (jsonify (JObj [("name", JStr "Account REST API Service");
                          ("version", JStr "1.0")])) []).

(** [def check_content_type(media_type)] *)
Definition check_content_type (media_type : string) : M unit :=
  r ← ask_request;
  let content_type := req_content_type r in
  if truthy content_type && eq_text content_type media_type then mret tt
  else abort status.HTTP_415_UNSUPPORTED_MEDIA_TYPE
             ("Content-Type must be " ++ media_type)%string.

(** [def create_accounts()] *)
Definition create_accounts : M Response :=
  check_content_type "application/json";;
  let account := Account.new in
  payload ← get_json;
  account ← AccountModel.deserialize account payload;
  account ← AccountModel.create account;
  let message := AccountModel.serialize account in
  let location_url := "/" in
  mret (make_response (jsonify message) status.HTTP_201_CREATED
                      [("Location", location_url)]).

(** [def list_accounts()] *)
Definition list_accounts : M Response :=
  accounts ← AccountModel.all;
  let serialized_accounts := map AccountModel.serialize accounts in
  mret (mkResponse HTTPStatus.OK (jsonify (JArr serialized_accounts)) []).

Definition not_found_message (account_id : Z) : string :=
  ("Account with id [" ++ str_of_int account_id ++ "] could not be found.")%string.

(** [def read_account(account_id)]; the returned mapping is answered as
    JSON with status 200. *)
Definition read_account (account_id : Z) : M Response :=
  account ← AccountModel.find account_id;
  match account with
  | None => abort HTTPStatus.NOT_FOUND (not_found_message account_id)
  | Some account =>
      mret (mkResponse HTTPStatus.OK (jsonify (AccountModel.serialize account)) [])
  end.

(** [def update_account(self, account_id)]: two positional parameters,
    as declared; [self] is not used in the body. *)
Definition update_account (self : Z) (account_id : Z) : M Response :=
  account ← AccountModel.find account_id;
  match account with
  | None => abort HTTPStatus.NOT_FOUND (not_found_message account_id)
  | Some account =>
      payload ← get_json;
      account ← AccountModel.update account payload;
      mret (mkResponse HTTPStatus.OK (jsonify (AccountModel.serialize account)) [])
  end.

(** [def delete_account(account_id)] *)
Definition delete_account (account_id : Z) : M Response :=
  account ← AccountModel.find account_id;
  match account with
  | Some account => AccountModel.delete account
  | None => mret tt
  end;;
  mret (mkResponse HTTPStatus.NO_CONTENT (BodyText "") []).

End routes.

(** ** Path text

    A path segment reaches the router as text decoded from UTF-8, a
    byte sequence that is not UTF-8 being replaced by U+FFFD.  [chars]
    gives the code points of a segment; every malformed sequence yields
    at least one U+FFFD. *)

Definition continuation (b : Z) : bool := (128 <=? b) && (b <=? 191).

Definition replacement : Z := 65533.

(** First two bytes of a three-byte sequence: no overlong form and no
    surrogate. *)
Definition lead3 (b0 b1 : Z) : bool :=
  ((b0 =? 224) && (160 <=? b1) && (b1 <=? 191))
  || ((225 <=? b0) && (b0 <=? 236) && continuation b1)
  || ((b0 =? 237) && (128 <=? b1) && (b1 <=? 159))
  || ((238 <=? b0) && (b0 <=? 239) && continuation b1).

(** First two bytes of a four-byte sequence: no overlong form and
    nothing above U+10FFFF. *)
Definition lead4 (b0 b1 : Z) : bool :=
  ((b0 =? 240) && (144 <=? b1) && (b1 <=? 191))
  || ((241 <=? b0) && (b0 <=? 243) && continuation b1)
  || ((b0 =? 244) && (128 <=? b1) && (b1 <=? 143)).

Fixpoint chars (s : string) : list Z :=
  match s with
  | EmptyString => []
  | String c0 r0 =>
      let b0 := byte c0 in
      if b0 <? 128 then b0 :: chars r0
      else
        match r0 with
        | EmptyString => [replacement]
        | String c1 r1 =>
            let b1 := byte c1 in
            if (194 <=? b0) && (b0 <=? 223) && continuation b1
            then ((b0 - 192) * 64 + (b1 - 128)) :: chars r1
            else
              match r1 with
              | EmptyString => replacement :: chars r0
              | String c2 r2 =>
                  let b2 := byte c2 in
                  if lead3 b0 b1 && continuation b2
                  then ((b0 - 224) * 4096 + (b1 - 128) * 64 + (b2 - 128)) :: chars r2
                  else
                    match r2 with
                    | EmptyString => replacement :: chars r0
                    | String c3 r3 =>
                        let b3 := byte c3 in
                        if lead4 b0 b1 && continuation b2 && continuation b3
                        then ((b0 - 240) * 262144 + (b1 - 128) * 4096
                              + (b2 - 128) * 64 + (b3 - 128)) :: chars r3
                        else replacement :: chars r0
                    end
              end
        end
  end.

(** The interpreter's table of decimal digits: [decimal cp] is
    [unicodedata.decimal(chr(cp))], defined for the characters of
    category Nd, which are those the pattern [\d] matches and [int]
    reads.  The table grows with the Unicode version of the
    interpreter, so it is a parameter; every version has the ASCII
    digits. *)
Class UnicodeData : Type := {
  decimal : Z -> option Z;
  decimal_ascii : forall d : Z, 0 <= d <= 9 -> decimal (48 + d) = Some d
}.

(** The table of Unicode 14.0 (Python 3.11): the digits come in runs of
    ten, zero to nine; these are the code points of the zeros. *)
Definition nd_zeros_14 : list Z :=
  [
    48; 1632; 1776; 1984; 2406; 2534; 2662; 2790;
    2918; 3046; 3174; 3302; 3430; 3558; 3664; 3792;
    3872; 4160; 4240; 6112; 6160; 6470; 6608; 6784;
    6800; 6992; 7088; 7232; 7248; 42528; 43216; 43264;
    43472; 43504; 43600; 44016; 65296; 66720; 68912; 69734;
    69872; 69942; 70096; 70384; 70736; 70864; 71248; 71360;
    71472; 71904; 72016; 72784; 73040; 73120; 92768; 92864;
    93008; 120782; 120792; 120802; 120812; 120822; 123200; 123632;
    125264; 130032
  ].

Fixpoint run_value (zeros : list Z) (cp : Z) : option Z :=
  match zeros with
  | [] => None
  | z :: rest =>
      if (z <=? cp) && (cp <=? z + 9) then Some (cp - z) else run_value rest cp
  end.

Definition unicode_14 : UnicodeData.
Proof.
  refine {| decimal := run_value nd_zeros_14 |}.
  intros d Hd. cbn [run_value nd_zeros_14].
  destruct (Z.leb_spec 48 (48 + d)); [|lia].
  destruct (Z.leb_spec (48 + d) (48 + 9)); [|lia].
  cbn. f_equal. lia.
Defined.

(** ** The framework around the handlers

    What [@app.route] registers and what Flask does with a request: URL
    matching with the [int] converter, the verbs a rule accepts, the
    keyword call of the view function, and the conversion of exceptions
    into responses.  Three things are outside the model: the redirect
    the framework may answer to a path with a doubled slash, the rule
    for static files ([/static/...]) it registers by itself, and the
    interpreter's bound on the length of a digit text [int] reads
    (4300 digits unless configured otherwise). *)

Module flask.

(** One part of a rule's path: fixed text, or [<int:name>]. *)
Inductive segment : Type :=
| Static (text : string)
| IntArg (name : string).

Definition kwargs : Type := list (string * Z).

(** A registered view function: its name, the names of its positional
    parameters as the [def] line gives them, and its body applied to
    the arguments in that order. *)
Record view : Type := mkView {
  view_name : string;
  view_params : list string;
  view_body : list Z -> M Response
}.

Record rule : Type := mkRule {
  rule_path : list segment;
  rule_methods : list method;
  rule_view : view
}.

(** [\d] on one character. *)
Definition is_digit {U : UnicodeData} (cp : Z) : bool :=
  match decimal cp with
  | Some _ => true
  | None => false
  end.

Definition digit_value {U : UnicodeData} (cp : Z) : Z :=
  match decimal cp with
  | Some d => d
  | None => 0
  end.

(** The segment matches the converter's pattern [\d+]: one or more
    decimal digits and nothing else. *)
Definition is_decimal {U : UnicodeData} (s : string) : bool :=
  match chars s with
  | [] => false
  | cps => forallb is_digit cps
  end.

(** [int(value)] on a text of decimal digits, of any length. *)
Definition int_of_digits {U : UnicodeData} (acc : Z) (s : string) : Z :=
  fold_left (fun a cp => 10 * a + digit_value cp) (chars s) acc.

(** The [int] converter: the value of a digit text, no match else. *)
Definition int_converter {U : UnicodeData} (s : string) : option Z :=
  if is_decimal s then Some (int_of_digits 0 s) else None.

Fixpoint match_path {U : UnicodeData} (pat : list segment) (path : list string)
  : option kwargs :=
  match pat, path with
  | [], [] => Some []
  | Static text :: pat', p :: path' =>
      if String.eqb text p then match_path pat' path' else None
  | IntArg name :: pat', p :: path' =>
      match int_converter p with
      | Some n =>
          match match_path pat' path' with
          | Some kw => Some ((name, n) :: kw)
          | None => None
          end
      | None => None
      end
  | _, _ => None
  end.

(** The verbs a rule accepts: those of its decorator, [HEAD] when [GET]
    is among them, and [OPTIONS]. *)
Definition accepted_methods (ms : list method) : list method :=
  ms ++ (if existsb (method_eqb GET) ms then [HEAD] else []) ++ [OPTIONS].

(** URL matching: the first rule whose path and method both match; a
    path known under other methods only is 405, an unknown path 404. *)
Fixpoint match_rules {U : UnicodeData} (rules : list rule) (m : method)
         (path : list string) (path_seen : bool) : exn + (view * kwargs) :=
  match rules with
  | [] =>
      if path_seen
      then inl (HTTPException status.HTTP_405_METHOD_NOT_ALLOWED "Method Not Allowed")
      else inl (HTTPException status.HTTP_404_NOT_FOUND "Not Found")
  | r :: rest =>
      match match_path (rule_path r) path with
      | Some kw =>
          if existsb (method_eqb m) (accepted_methods (rule_methods r))
          then inr (rule_view r, kw)
          else match_rules rest m path true
      | None => match_rules rest m path path_seen
      end
  end.

Fixpoint kw_get (name : string) (kw : kwargs) : option Z :=
  match kw with
  | [] => None
  | (k, v) :: rest => if String.eqb k name then Some v else kw_get name rest
  end.

Fixpoint bind_params (params : list string) (kw : kwargs) : option (list Z) :=
  match params with
  | [] => Some []
  | p :: ps =>
      match kw_get p kw, bind_params ps kw with
      | Some v, Some vs => Some (v :: vs)
      | _, _ => None
      end
  end.

(** The keyword call of a view: every parameter needs its keyword and every
    keyword its parameter; otherwise Python raises [TypeError]. *)
Definition call_view (v : view) (kw : kwargs) : M Response :=
  if forallb (fun kv => existsb (String.eqb (fst kv)) (view_params v)) kw then
    match bind_params (view_params v) kw with
    | Some args => view_body v args
    | None =>
        raise (PyError "TypeError"
                 (view_name v ++ "() missing a required positional argument")%string)
    end
  else
    raise (PyError "TypeError"
             (view_name v ++ "() got an unexpected keyword argument")%string).

Definition error_body (code : Z) (error message : string) : body :=
  jsonify (JObj [("status", JNum code); ("error", JStr error); ("message", JStr message)]).

(** Modelled from the spec: the error handlers of
    [service/common/error_handlers.py], which is missing; section 7
    gives a validation failure as 400, an aborted request as its own
    status, and any other failure as a 5xx with a message body. *)
Definition error_response (e : exn) : Response :=
  match e with
  | HTTPException code description =>
      mkResponse code (error_body code "Error" description) []
  | DataValidationError message =>
      mkResponse status.HTTP_400_BAD_REQUEST
                 (error_body status.HTTP_400_BAD_REQUEST "Bad Request" message) []
  | PyError kind message =>
      mkResponse status.HTTP_500_INTERNAL_SERVER_ERROR
                 (error_body status.HTTP_500_INTERNAL_SERVER_ERROR
                             "Internal Server Error" message) []
  end.

End flask.

(** ** The application: the route table and the request cycle *)

Module app.
Import flask.

Definition bad_arity {A} (name : string) : M A :=
  raise (PyError "TypeError" (name ++ "() called with a wrong number of arguments")%string).

Definition health_view : view :=
  mkView "health" []
    (fun args => match args with [] => routes.health | _ => bad_arity "health" end).

Definition index_view : view :=
  mkView "index" []
    (fun args => match args with [] => routes.index | _ => bad_arity "index" end).

Definition create_accounts_view : view :=
  mkView "create_accounts" []
    (fun args => match args with
                 | [] => routes.create_accounts
                 | _ => bad_arity "create_accounts"
                 end).

Definition list_accounts_view : view :=
  mkView "list_accounts" []
    (fun args => match args with
                 | [] => routes.list_accounts
                 | _ => bad_arity "list_accounts"
                 end).

Definition read_account_view : view :=
  mkView "read_account" ["account_id"]
    (fun args => match args with
                 | [account_id] => routes.read_account account_id
                 | _ => bad_arity "read_account"
                 end).

Definition update_account_view : view :=
  mkView "update_account" ["self"; "account_id"]
    (fun args => match args with
                 | [self; account_id] => routes.update_account self account_id
                 | _ => bad_arity "update_account"
                 end).

Definition delete_account_view : view :=
  mkView "delete_account" ["account_id"]
    (fun args => match args with
                 | [account_id] => routes.delete_account account_id
                 | _ => bad_arity "delete_account"
                 end).

(** The [@app.route] decorators of [routes.py], top to bottom. *)
Definition url_map : list rule :=
  [ mkRule [Static "health"] [GET] health_view;
    mkRule [] [GET] index_view;
    mkRule [Static "accounts"] [POST] create_accounts_view;
    mkRule [Static "accounts"] [GET] list_accounts_view;
    mkRule [Static "accounts"; IntArg "account_id"] [GET] read_account_view;
    mkRule [Static "accounts"; IntArg "account_id"] [PUT] update_account_view;
    mkRule [Static "accounts"; IntArg "account_id"] [DELETE] delete_account_view ].

(** The routing layer: which view a request reaches, with which
    keyword arguments, or the routing error. *)
Definition route {U : UnicodeData} (r : Request) : exn + (view * kwargs) :=
  match_rules url_map (req_method r) (req_path r) false.

(** The automatic answer to [OPTIONS] on a path some rule matches. *)
Definition options_response : Response := mkResponse 200 (BodyText "") [].

(** What leaves the server: the answer to a [HEAD] request carries no
    body. *)
Definition on_the_wire (m : method) (resp : Response) : Response :=
  match m with
  | HEAD => mkResponse (status_code resp) (BodyText "") (headers resp)
  | _ => resp
  end.

(** One request cycle: route; answer [OPTIONS] without calling the
    view; otherwise call the view and turn an exception into its error
    response.  The result is the response, the store after the request,
    and the model-layer work done. *)
Definition handle {U : UnicodeData} (c : ctx) (s : store)
  : Response * store * list event :=
  let m := req_method (request c) in
  match route (request c) with
  | inl e => (on_the_wire m (error_response e), s, [])
  | inr (v, kw) =>
      match m with
      | OPTIONS => (options_response, s, [])
      | _ =>
          match call_view v kw c s with
          | (inr resp, s', log) => (on_the_wire m resp, s', log)
          | (inl e, s', log) => (on_the_wire m (error_response e), s', log)
          end
      end
  end.

(** A sequence of requests served one after the other. *)
Fixpoint serve {U : UnicodeData} (cs : list ctx) (s : store)
  : list Response * store :=
  match cs with
  | [] => ([], s)
  | c :: rest =>
      match handle c s with
      | (resp, s', _) =>
          match serve rest s' with
          | (resps, s'') => (resp :: resps, s'')
          end
      end
  end.

End app.

(** ** Reading the outcome of a request cycle *)

Definition response_of (o : Response * store * list event) : Response := fst (fst o).
Definition store_of (o : Response * store * list event) : store := snd (fst o).
Definition log_of (o : Response * store * list event) : list event := snd o.

(** A request that creates an account: a POST on [/accounts] declaring
    JSON whose payload passes validation as the record [a]. *)
Definition creates (c : ctx) (a : Account.t) : Prop :=
  req_method (request c) = POST
  /\ req_path (request c) = ["accounts"]
  /\ req_content_type (request c) = Some "application/json"
  /\ AccountModel.parse (today c) Account.new (req_json (request c)) = inr a.

Definition is_create (c : ctx) : Prop := exists a, creates c a.

(** The answer to a creating request that persisted the record [a]. *)
Definition created_response (a : Account.t) : Response :=
  mkResponse 201 (BodyJson (AccountModel.serialize a)) [("Location", "/")].

(** The required fields of an Account payload (specification section 3). *)
Definition required_fields : list string :=
  ["name"; "email"; "address"; "phone_number"].

(** ** Sample data *)

Module sample.

Definition day : string := "2024-05-17".

Definition alice : json :=
  JObj [("name", JStr "Alice"); ("email", JStr "a@x.com");
        ("address", JStr "1 Main St"); ("phone_number", JStr "555-0100")].

Definition renamed : json :=
  JObj [("name", JStr "New Name"); ("email", JStr "a@x.com");
        ("address", JStr "1 Main St"); ("phone_number", JStr "555-0100")].

Definition nameless : json :=
  JObj [("email", JStr "a@x.com"); ("address", JStr "1 Main St");
        ("phone_number", JStr "555-0100")].

Definition alice_row : Account.t :=
  Account.mk (Some 1) "Alice" "a@x.com" "1 Main St" "555-0100" day.

Definition empty_store : store := mkStore [] 1.
Definition alice_store : store := mkStore [alice_row] 2.

Definition req (m : method) (path : list string) (content_type : option string)
           (payload : option json) : ctx :=
  mkCtx (mkRequest m path content_type payload) day.

Definition post_alice : ctx :=
  req POST ["accounts"] (Some "application/json") (Some alice).

Definition post_nameless_html : ctx :=
  req POST ["accounts"] (Some "text/html") (Some nameless).

Definition post_nameless : ctx :=
  req POST ["accounts"] (Some "application/json") (Some nameless).

Definition put_renamed : ctx :=
  req PUT ["accounts"; "1"] (Some "application/json") (Some renamed).

Definition put_html_missing : ctx :=
  req PUT ["accounts"; "999"] (Some "text/html") (Some renamed).

Definition post_alice_html : ctx :=
  req POST ["accounts"] (Some "text/html") (Some alice).

Definition renamed_row : Account.t :=
  Account.mk (Some 1) "New Name" "a@x.com" "1 Main St" "555-0100" day.

Definition put_missing : ctx :=
  req PUT ["accounts"; "999"] (Some "application/json") (Some renamed).

Definition get_alice : ctx := req GET ["accounts"; "1"] None None.
Definition get_word : ctx := req GET ["accounts"; "abc"] None None.
Definition get_list : ctx := req GET ["accounts"] None None.
Definition get_index : ctx := req GET [] None None.
Definition delete_alice : ctx := req DELETE ["accounts"; "1"] None None.
Definition delete_missing : ctx := req DELETE ["accounts"; "999"] None None.

End sample.

(** ** The route table, spelled out *)

(** The paths some rule of [routes.py] matches: [/], [/health],
    [/accounts] and [/accounts/<digits>]. *)
Definition known_path {U : UnicodeData} (p : list string) : bool :=
  match p with
  | [] => true
  | [a] => String.eqb "health" a || String.eqb "accounts" a
  | [a; seg] => String.eqb "accounts" a && flask.is_decimal seg
  | _ => false
  end.

(** The verbs served on each of these paths: those the decorators name,
    [HEAD] beside [GET], and [OPTIONS]. *)
Definition served_methods (p : list string) : list method :=
  match p with
  | [] => [GET; HEAD; OPTIONS]
  | [a] =>
      if String.eqb "health" a then [GET; HEAD; OPTIONS]
      else [POST; GET; HEAD; OPTIONS]
  | _ => [GET; PUT; DELETE; HEAD; OPTIONS]
  end.

(** A text that can be one segment of a path: it holds no slash. *)
Definition slash_free (x : string) : bool :=
  negb (existsb (Ascii.eqb "/") (list_ascii_of_string x)).

(** A path the model of the framework covers: every segment is a
    segment, none is empty (no doubled or trailing slash), and the path
    is not under [/static]. *)
Definition plain_path (p : list string) : bool :=
  forallb (fun seg => negb (String.eqb seg "") && slash_free seg) p
  && match p with
     | a :: _ => negb (String.eqb "static" a)
     | [] => true
     end.

(** The segment is a decimal integer: it is a text of one or more
    characters, each a decimal digit. *)
Definition decimal_text {U : UnicodeData} (x : string) : Prop :=
  chars x <> [] /\ Forall (fun cp => exists d, decimal cp = Some d) (chars x).

(** The record [update] leaves in the store: the found record [a] with
    the four text fields of the validated payload [p]. *)
Definition updated (a p : Account.t) : Account.t :=
  Account.mk (Account.id a) (Account.name p) (Account.email p)
    (Account.address p) (Account.phone_number p) (Account.date_joined a).

(** ** Well-formed stores *)

(** Every persisted record carries an identifier below the store's
    sequence, and no two records carry the same one. *)
Definition store_ok (s : store) : Prop :=
  Forall (fun a => exists i, Account.id a = Some i /\ i < next_id s) (rows s)
  /\ NoDup (map Account.id (rows s)).

(** ** More sample data *)

Module cases.

Definition bob : json :=
  JObj [("name", JStr "Bob"); ("email", JStr "b@x.com");
        ("address", JStr "2 Side St"); ("phone_number", JStr "555-0101");
        ("date_joined", JStr "2020-02-29")].

Definition bob_row : Account.t :=
  Account.mk (Some 2) "Bob" "b@x.com" "2 Side St" "555-0101" "2020-02-29".

Definition two_store : store := mkStore [sample.alice_row; bob_row] 3.

Definition post_bob : ctx :=
  sample.req POST ["accounts"] (Some "application/json") (Some bob).

Definition post_bob_charset : ctx :=
  sample.req POST ["accounts"] (Some "application/json; charset=utf-8") (Some bob).

Definition post_no_body : ctx :=
  sample.req POST ["accounts"] (Some "application/json") None.

Definition get_health : ctx := sample.req GET ["health"] (Some "text/html") (Some bob).
Definition get_bob : ctx := sample.req GET ["accounts"; "2"] None None.
Definition get_bob_padded : ctx := sample.req GET ["accounts"; "002"] None None.
Definition get_deep : ctx := sample.req GET ["accounts"; "accounts"; "999"] None None.
Definition put_deep : ctx := sample.req PUT ["accounts"; "accounts"; "999"] None None.
Definition delete_collection : ctx := sample.req DELETE ["accounts"] None None.
Definition delete_bob : ctx := sample.req DELETE ["accounts"; "2"] None None.

Definition get_arabic : ctx := sample.req GET ["accounts"; "١"] None None.
Definition get_padded_word : ctx := sample.req GET ["accounts"; "1x"] None None.
Definition head_list : ctx := sample.req HEAD ["accounts"] None None.
Definition options_list : ctx := sample.req OPTIONS ["accounts"] None None.
Definition patch_bob : ctx := sample.req PATCH ["accounts"; "2"] None None.

End cases.

(** * Properties *)

Section General.
Context {U : UnicodeData}.
Import flask app.

(** ** What each model operation and each handler computes *)

Lemma get_json_run c s :
  get_json c s =
    if is_json (req_content_type (request c)) then
      match req_json (request c) with
      | Some v => (inr (Some v), s, [])
      | None => (inl bad_request, s, [])
      end
    else (inl not_json, s, []).
Proof.
  unfold get_json, mbind, M_bind, bind, ask_request.
  destruct (is_json _); [|reflexivity].
  destruct (req_json _); reflexivity.
Qed.

Lemma find_run c s i :
  AccountModel.find i c s = (inr (AccountModel.lookup_row i (rows s)), s, [EvGet i]).
Proof. reflexivity. Qed.

Lemma all_run c s : AccountModel.all c s = (inr (rows s), s, [EvListAll]).
Proof. reflexivity. Qed.

Lemma create_run c s a :
  AccountModel.create a c s =
    (inr (AccountModel.with_id (next_id s) a),
     mkStore (rows s ++ [AccountModel.with_id (next_id s) a]) (next_id s + 1),
     [EvInsert (next_id s)]).
Proof. reflexivity. Qed.

Lemma deserialize_run c s a d :
  AccountModel.deserialize a d c s =
    (AccountModel.parse (today c) a d, s, [EvDeserialize]).
Proof.
  unfold AccountModel.deserialize, mbind, M_bind, bind; cbn.
  destruct (AccountModel.parse (today c) a d); reflexivity.
Qed.

Lemma check_content_type_run c s media_type :
  routes.check_content_type media_type c s =
    if routes.truthy (req_content_type (request c))
       && routes.eq_text (req_content_type (request c)) media_type
    then (inr tt, s, [])
    else (inl (HTTPException 415 ("Content-Type must be " ++ media_type)%string), s, []).
Proof.
  unfold routes.check_content_type, mbind, M_bind, bind; cbn.
  destruct (_ && _); reflexivity.
Qed.

Lemma content_type_json (o : option string) :
  routes.truthy o && routes.eq_text o "application/json" = true
  <-> o = Some "application/json".
Proof.
  destruct o as [v|]; cbn -[String.eqb]; [|split; discriminate].
  destruct (String.eqb_spec v "application/json") as [->|Hne].
  - split; reflexivity.
  - rewrite andb_false_r. split; [discriminate | congruence].
Qed.

Lemma list_accounts_run c s :
  routes.list_accounts c s =
    (inr (mkResponse 200 (BodyJson (JArr (map AccountModel.serialize (rows s)))) []),
     s, [EvListAll]).
Proof. reflexivity. Qed.

Lemma read_account_run c s i :
  routes.read_account i c s =
    (match AccountModel.lookup_row i (rows s) with
     | Some a => inr (mkResponse 200 (BodyJson (AccountModel.serialize a)) [])
     | None => inl (HTTPException 404 (routes.not_found_message i))
     end, s, [EvGet i]).
Proof.
  unfold routes.read_account, mbind, M_bind, bind. rewrite find_run.
  destruct (AccountModel.lookup_row i (rows s)); reflexivity.
Qed.

Lemma delete_account_run c s i :
  routes.delete_account i c s =
    match AccountModel.lookup_row i (rows s) with
    | Some a =>
        match Account.id a with
        | Some j =>
            (inr (mkResponse 204 (BodyText "") []),
             mkStore (AccountModel.remove_row j (rows s)) (next_id s),
             [EvGet i; EvDelete j])
        | None => (inr (mkResponse 204 (BodyText "") []), s, [EvGet i])
        end
    | None => (inr (mkResponse 204 (BodyText "") []), s, [EvGet i])
    end.
Proof.
  unfold routes.delete_account, mbind, M_bind, bind. rewrite find_run.
  destruct (AccountModel.lookup_row i (rows s)) as [a|]; [|reflexivity].
  unfold AccountModel.delete. destruct (Account.id a); reflexivity.
Qed.

Lemma create_accounts_run c s :
  routes.create_accounts c s =
    if routes.truthy (req_content_type (request c))
       && routes.eq_text (req_content_type (request c)) "application/json"
    then
      match req_json (request c) with
      | None => (inl bad_request, s, [])
      | Some v =>
          match AccountModel.parse (today c) Account.new (Some v) with
          | inr a =>
              let saved := AccountModel.with_id (next_id s) a in
              (inr (mkResponse 201 (BodyJson (AccountModel.serialize saved))
                               [("Location", "/")]),
               mkStore (rows s ++ [saved]) (next_id s + 1),
               [EvDeserialize; EvInsert (next_id s)])
          | inl e => (inl e, s, [EvDeserialize])
          end
      end
    else (inl (HTTPException 415 "Content-Type must be application/json"), s, []).
Proof.
  unfold routes.create_accounts.
  unfold mbind at 1. unfold M_bind, bind.
  rewrite check_content_type_run.
  destruct (_ && _) eqn:E; [|reflexivity].
  apply content_type_json in E.
  unfold mbind, M_bind, bind.
  rewrite get_json_run, E.
  change (is_json (Some "application/json")) with true. cbv iota.
  destruct (req_json (request c)) as [v|]; [|reflexivity].
  rewrite deserialize_run.
  destruct (AccountModel.parse _ _ _); reflexivity.
Qed.

Lemma update_account_run c s self i :
  routes.update_account self i c s =
    match AccountModel.lookup_row i (rows s) with
    | None => (inl (HTTPException 404 (routes.not_found_message i)), s, [EvGet i])
    | Some a =>
        if is_json (req_content_type (request c)) then
          match req_json (request c) with
          | None => (inl bad_request, s, [EvGet i])
          | Some v =>
              match Account.id a with
              | None =>
                  (inl (PyError "RuntimeError" "update called on a transient Account"),
                   s, [EvGet i])
              | Some j =>
                  match AccountModel.parse (today c) a (Some v) with
                  | inl e => (inl e, s, [EvGet i])
                  | inr p =>
                      (inr (mkResponse 200
                              (BodyJson (AccountModel.serialize (updated a p))) []),
                       mkStore (AccountModel.replace_row (updated a p) (rows s))
                               (next_id s),
                       [EvGet i; EvUpdate j])
                  end
              end
          end
        else (inl not_json, s, [EvGet i])
    end.
Proof.
  unfold routes.update_account, mbind, M_bind, bind. rewrite find_run.
  destruct (AccountModel.lookup_row i (rows s)) as [a|]; [|reflexivity].
  rewrite get_json_run.
  destruct (is_json _); [|reflexivity].
  destruct (req_json (request c)) as [v|]; [|reflexivity].
  unfold AccountModel.update, updated. destruct (Account.id a); [|reflexivity].
  unfold mbind, M_bind, bind, ask_today.
  destruct (AccountModel.parse _ _ _); reflexivity.
Qed.

(** ** The routing layer *)

Lemma int_converter_decimal seg :
  is_decimal seg = true -> int_converter seg = Some (int_of_digits 0 seg).
Proof. unfold int_converter. intros ->. reflexivity. Qed.

Lemma int_converter_not_decimal seg :
  is_decimal seg = false -> int_converter seg = None.
Proof. unfold int_converter. intros ->. reflexivity. Qed.

(** The route table as one equation. *)
Lemma route_eq (r : Request) :
  route r =
    match req_path r with
    | [] =>
        match req_method r with
        | GET | HEAD | OPTIONS => inr (index_view, [])
        | _ => inl (HTTPException 405 "Method Not Allowed")
        end
    | [a] =>
        if String.eqb "health" a then
          match req_method r with
          | GET | HEAD | OPTIONS => inr (health_view, [])
          | _ => inl (HTTPException 405 "Method Not Allowed")
          end
        else if String.eqb "accounts" a then
          match req_method r with
          | POST | OPTIONS => inr (create_accounts_view, [])
          | GET | HEAD => inr (list_accounts_view, [])
          | _ => inl (HTTPException 405 "Method Not Allowed")
          end
        else inl (HTTPException 404 "Not Found")
    | [a; seg] =>
        if String.eqb "accounts" a then
          match int_converter seg with
          | Some n =>
              match req_method r with
              | GET | HEAD | OPTIONS => inr (read_account_view, [("account_id", n)])
              | PUT => inr (update_account_view, [("account_id", n)])
              | DELETE => inr (delete_account_view, [("account_id", n)])
              | _ => inl (HTTPException 405 "Method Not Allowed")
              end
          | None => inl (HTTPException 404 "Not Found")
          end
        else inl (HTTPException 404 "Not Found")
    | _ => inl (HTTPException 404 "Not Found")
    end.
Proof.
  destruct r as [m path ct j]. unfold route, url_map. cbn [req_method req_path].
  destruct path as [|p1 [|p2 [|p3 rest]]]; cbn -[String.eqb int_converter].
  - destruct m; reflexivity.
  - destruct (String.eqb_spec "health" p1) as [<-|Hh]; cbn -[String.eqb int_converter].
    + destruct m; reflexivity.
    + destruct (String.eqb "accounts" p1); destruct m; reflexivity.
  - destruct (String.eqb "health" p1); cbn -[String.eqb int_converter];
      (destruct (String.eqb "accounts" p1); cbn -[String.eqb int_converter];
       [|reflexivity]);
      (destruct (int_converter p2) as [n|]; cbn; [|reflexivity]);
      destruct m; reflexivity.
  - destruct (String.eqb "health" p1); cbn -[String.eqb int_converter];
      (destruct (String.eqb "accounts" p1); cbn -[String.eqb int_converter];
       [|reflexivity]);
      (destruct (int_converter p2) as [n|]; cbn; reflexivity).
Qed.

(** The rules on [/accounts/<int:account_id>]. *)
Lemma route_account_id (r : Request) seg n :
  req_path r = ["accounts"; seg] -> int_converter seg = Some n ->
  route r =
    match req_method r with
    | GET | HEAD | OPTIONS => inr (read_account_view, [("account_id", n)])
    | PUT => inr (update_account_view, [("account_id", n)])
    | DELETE => inr (delete_account_view, [("account_id", n)])
    | POST | PATCH => inl (HTTPException 405 "Method Not Allowed")
    end.
Proof.
  intros Hp Hn. rewrite route_eq, Hp. cbn -[int_converter]. rewrite Hn.
  destruct (req_method r); reflexivity.
Qed.

(** No rule accepts [/accounts/x] when [x] is not a digit text. *)
Lemma route_account_not_int (r : Request) seg :
  req_path r = ["accounts"; seg] -> int_converter seg = None ->
  route r = inl (HTTPException 404 "Not Found").
Proof.
  intros Hp Hn. rewrite route_eq, Hp. cbn -[int_converter]. rewrite Hn. reflexivity.
Qed.

(** The rules on [/accounts]. *)
Lemma route_accounts (r : Request) :
  req_path r = ["accounts"] ->
  route r =
    match req_method r with
    | POST | OPTIONS => inr (create_accounts_view, [])
    | GET | HEAD => inr (list_accounts_view, [])
    | PUT | DELETE | PATCH => inl (HTTPException 405 "Method Not Allowed")
    end.
Proof.
  intros Hp. rewrite route_eq, Hp. cbn. destruct (req_method r); reflexivity.
Qed.

(** Every routing error is a 404 or a 405. *)
Lemma match_rules_error rules m p seen e :
  match_rules rules m p seen = inl e ->
  e = HTTPException 404 "Not Found" \/ e = HTTPException 405 "Method Not Allowed".
Proof.
  revert seen. induction rules as [|r rules IH]; intros seen; cbn.
  - destruct seen; intros [= <-]; auto.
  - destruct (match_path _ _); [destruct (existsb _ _); [discriminate|]|]; apply IH.
Qed.

(** Every view a request can reach, by method. *)
Lemma route_cases (r : Request) :
  (exists e, route r = inl e)
  \/ ((req_method r = GET \/ req_method r = HEAD) /\
      (route r = inr (health_view, []) \/ route r = inr (index_view, [])
       \/ route r = inr (list_accounts_view, [])
       \/ exists n, route r = inr (read_account_view, [("account_id", n)])))
  \/ (req_method r = POST /\ req_path r = ["accounts"]
      /\ route r = inr (create_accounts_view, []))
  \/ (req_method r = PUT /\
      exists n, route r = inr (update_account_view, [("account_id", n)]))
  \/ (req_method r = DELETE /\
      exists seg n, req_path r = ["accounts"; seg] /\ int_converter seg = Some n
        /\ route r = inr (delete_account_view, [("account_id", n)]))
  \/ (req_method r = OPTIONS /\ exists v kw, route r = inr (v, kw)).
Proof.
  rewrite route_eq.
  destruct (req_path r) as [|p1 [|p2 [|p3 rest]]].
  - destruct (req_method r); eauto 12.
  - destruct (String.eqb "health" p1); [destruct (req_method r); eauto 12|].
    destruct (String.eqb_spec "accounts" p1) as [<-|Ha]; [|eauto].
    destruct (req_method r); eauto 12.
  - destruct (String.eqb_spec "accounts" p1) as [<-|Ha]; [|eauto].
    destruct (int_converter p2) as [n|] eqn:Hn; [|eauto].
    destruct (req_method r); eauto 14.
  - eauto.
Qed.

(** The keyword call of [update_account] cannot bind [self]: the URL
    supplies [account_id] only. *)
Lemma call_update_account_view n :
  call_view update_account_view [("account_id", n)] =
    raise (PyError "TypeError" "update_account() missing a required positional argument").
Proof. reflexivity. Qed.

Lemma call_read_account_view n :
  call_view read_account_view [("account_id", n)] = routes.read_account n.
Proof. reflexivity. Qed.

Lemma call_delete_account_view n :
  call_view delete_account_view [("account_id", n)] = routes.delete_account n.
Proof. reflexivity. Qed.

(** ** The store *)

Section Store.
Import AccountModel.

Lemma has_id_true i a : has_id i a = true <-> Account.id a = Some i.
Proof.
  unfold has_id. destruct (Account.id a) as [j|]; [|split; discriminate].
  rewrite Z.eqb_eq. split; [intros ->; reflexivity | congruence].
Qed.

Lemma lookup_row_id i l a : lookup_row i l = Some a -> Account.id a = Some i.
Proof.
  unfold lookup_row. intros H. apply find_some in H as [_ H].
  now apply has_id_true.
Qed.

Lemma lookup_row_In i l a : lookup_row i l = Some a -> In a l.
Proof. unfold lookup_row. intros H. now apply find_some in H. Qed.

Lemma lookup_remove_row i l : lookup_row i (remove_row i l) = None.
Proof.
  unfold lookup_row, remove_row.
  induction l as [|a l IH]; [reflexivity|]. cbn.
  destruct (has_id i a) eqn:E; cbn; [assumption|].
  rewrite E. assumption.
Qed.

Lemma remove_row_absent i l : lookup_row i l = None -> remove_row i l = l.
Proof.
  unfold lookup_row, remove_row.
  induction l as [|a l IH]; [reflexivity|]. cbn.
  destruct (has_id i a) eqn:E; [discriminate|]. cbn.
  intros H. now rewrite IH.
Qed.

(** After [replace_row] the record found under its id is the new one. *)
Lemma lookup_replace_row i a l :
  Account.id a = Some i -> lookup_row i l <> None ->
  lookup_row i (replace_row a l) = Some a.
Proof.
  intros Hid. unfold replace_row, lookup_row. rewrite Hid.
  induction l as [|r l IH]; [intros H; now elim H|]. cbn.
  destruct (has_id i r) eqn:E.
  - intros _. now rewrite (proj2 (has_id_true i a) Hid).
  - rewrite E. exact IH.
Qed.

Lemma serialize_inj a b : serialize a = serialize b -> a = b.
Proof.
  destruct a as [ia na ea aa pa da], b as [ib nb eb ab pb db].
  unfold serialize; cbn. intros H. injection H as Hi -> -> -> -> ->.
  destruct ia, ib; try discriminate; congruence.
Qed.

End Store.

Lemma lookup_row_app i l l' :
  AccountModel.lookup_row i (l ++ l') =
    match AccountModel.lookup_row i l with
    | Some a => Some a
    | None => AccountModel.lookup_row i l'
    end.
Proof.
  unfold AccountModel.lookup_row. induction l as [|a l IH]; [reflexivity|].
  cbn. destruct (AccountModel.has_id i a); [reflexivity | exact IH].
Qed.

Lemma lookup_remove_row_other i j l :
  i <> j ->
  AccountModel.lookup_row j (AccountModel.remove_row i l) = AccountModel.lookup_row j l.
Proof.
  intros Hne. unfold AccountModel.lookup_row, AccountModel.remove_row.
  induction l as [|a l IH]; [reflexivity|]. cbn.
  destruct (AccountModel.has_id i a) eqn:Ei; cbn.
  - destruct (AccountModel.has_id j a) eqn:Ej; [|exact IH].
    apply has_id_true in Ei, Ej. congruence.
  - destruct (AccountModel.has_id j a); [reflexivity | exact IH].
Qed.

(** In a well-formed store the next identifier is not in use. *)
Lemma store_ok_fresh s :
  store_ok s -> AccountModel.lookup_row (next_id s) (rows s) = None.
Proof.
  intros [Hlt _]. destruct (AccountModel.lookup_row _ _) as [a|] eqn:E; [|reflexivity].
  pose proof (lookup_row_id _ _ _ E) as Hid.
  apply lookup_row_In in E. rewrite Forall_forall in Hlt.
  apply list_elem_of_In, Hlt in E as (i & Hi & Hlti). rewrite Hid in Hi.
  injection Hi as <-. lia.
Qed.

Lemma store_ok_insert s a :
  store_ok s ->
  store_ok (mkStore (rows s ++ [AccountModel.with_id (next_id s) a]) (next_id s + 1)).
Proof.
  intros [Hlt Hnd]. split; cbn [rows next_id].
  - apply Forall_app. split.
    + eapply Forall_impl; [exact Hlt|]. intros x (i & Hi & Hlti).
      exists i. split; [exact Hi | lia].
    + constructor; [|constructor]. exists (next_id s). split; [reflexivity | lia].
  - rewrite map_app. cbn. apply NoDup_app. split; [exact Hnd|]. split.
    + intros x Hin Hx. apply list_elem_of_In in Hx as [<-|[]].
      apply list_elem_of_In, in_map_iff in Hin as (r & Hr & Hin).
      rewrite Forall_forall in Hlt.
      apply list_elem_of_In, Hlt in Hin as (i & Hi & Hlti).
      rewrite Hi in Hr. injection Hr as ->. lia.
    + apply NoDup_singleton.
Qed.

Lemma store_ok_remove s i :
  store_ok s -> store_ok (mkStore (AccountModel.remove_row i (rows s)) (next_id s)).
Proof.
  intros [Hlt Hnd]. unfold AccountModel.remove_row. split; cbn [rows next_id].
  - rewrite Forall_forall in *. intros x Hx.
    apply list_elem_of_In, filter_In in Hx as [Hx _].
    apply Hlt, list_elem_of_In, Hx.
  - clear Hlt. induction (rows s) as [|a l IH]; [constructor|].
    cbn in Hnd. apply NoDup_cons in Hnd as [Hnotin Hnd]. cbn.
    destruct (negb _); [|now apply IH].
    cbn. apply NoDup_cons. split; [|now apply IH].
    intros Hin. apply Hnotin.
    apply list_elem_of_In, in_map_iff in Hin as (r & Hr & Hin).
    apply filter_In in Hin as [Hin _].
    apply list_elem_of_In, in_map_iff. eauto.
Qed.

(** ** One request cycle *)

(** A request the routing layer rejects touches nothing. *)
Lemma handle_route_error c s e :
  route (request c) = inl e ->
  handle c s = (on_the_wire (req_method (request c)) (error_response e), s, []).
Proof. unfold handle. intros ->. reflexivity. Qed.

Lemma handle_read_account c s seg n :
  req_method (request c) = GET -> req_path (request c) = ["accounts"; seg] ->
  int_converter seg = Some n ->
  handle c s =
    (match AccountModel.lookup_row n (rows s) with
     | Some a => mkResponse 200 (BodyJson (AccountModel.serialize a)) []
     | None => error_response (HTTPException 404 (routes.not_found_message n))
     end, s, [EvGet n]).
Proof.
  intros Hm Hp Hn. unfold handle.
  rewrite (route_account_id _ seg n Hp Hn), Hm, call_read_account_view, read_account_run.
  destruct (AccountModel.lookup_row n (rows s)); reflexivity.
Qed.

Lemma handle_delete_account c s seg n :
  req_method (request c) = DELETE -> req_path (request c) = ["accounts"; seg] ->
  int_converter seg = Some n ->
  handle c s =
    (mkResponse 204 (BodyText "") [],
     match AccountModel.lookup_row n (rows s) with
     | Some _ => mkStore (AccountModel.remove_row n (rows s)) (next_id s)
     | None => s
     end,
     match AccountModel.lookup_row n (rows s) with
     | Some _ => [EvGet n; EvDelete n]
     | None => [EvGet n]
     end).
Proof.
  intros Hm Hp Hn. unfold handle.
  rewrite (route_account_id _ seg n Hp Hn), Hm, call_delete_account_view,
    delete_account_run.
  destruct (AccountModel.lookup_row n (rows s)) as [a|] eqn:E; [|reflexivity].
  rewrite (lookup_row_id _ _ _ E). reflexivity.
Qed.

Lemma handle_list_accounts c s :
  req_method (request c) = GET -> req_path (request c) = ["accounts"] ->
  handle c s =
    (mkResponse 200 (BodyJson (JArr (map AccountModel.serialize (rows s)))) [],
     s, [EvListAll]).
Proof.
  intros Hm Hp. unfold handle. rewrite (route_accounts _ Hp), Hm. reflexivity.
Qed.

Lemma handle_create_accounts c s :
  req_method (request c) = POST -> req_path (request c) = ["accounts"] ->
  handle c s =
    if routes.truthy (req_content_type (request c))
       && routes.eq_text (req_content_type (request c)) "application/json"
    then
      match req_json (request c) with
      | None => (error_response bad_request, s, [])
      | Some v =>
          match AccountModel.parse (today c) Account.new (Some v) with
          | inr a =>
              let saved := AccountModel.with_id (next_id s) a in
              (mkResponse 201 (BodyJson (AccountModel.serialize saved))
                          [("Location", "/")],
               mkStore (rows s ++ [saved]) (next_id s + 1),
               [EvDeserialize; EvInsert (next_id s)])
          | inl e => (error_response e, s, [EvDeserialize])
          end
      end
    else (error_response (HTTPException 415 "Content-Type must be application/json"),
          s, []).
Proof.
  intros Hm Hp. unfold handle. rewrite (route_accounts _ Hp), Hm.
  change (call_view create_accounts_view [] c s) with (routes.create_accounts c s).
  rewrite create_accounts_run.
  destruct (_ && _); [|reflexivity].
  destruct (req_json (request c)); [|reflexivity].
  destruct (AccountModel.parse _ _ _); reflexivity.
Qed.

(** No PUT request reaches the body of [update_account]: routing
    rejects it, or the keyword call fails on [self]. *)
Lemma handle_put c s :
  req_method (request c) = PUT ->
  exists code, handle c s = (error_response code, s, [])
    /\ (code = HTTPException 404 "Not Found"
        \/ code = HTTPException 405 "Method Not Allowed"
        \/ code = PyError "TypeError"
                    "update_account() missing a required positional argument").
Proof.
  intros Hm. destruct (route_cases (request c)) as
    [[e He]|[[[Hg|Hg] _]|[[Hg _]|[[_ [n Hr]]|[[Hg _]|[Hg _]]]]]]; try congruence.
  - exists e. split.
    + rewrite (handle_route_error c s _ He), Hm. reflexivity.
    + apply match_rules_error in He. tauto.
  - eexists. split; [|right; right; reflexivity].
    unfold handle. rewrite Hr, Hm, call_update_account_view. reflexivity.
Qed.

(** An [OPTIONS] request calls no view: the store is left as it was. *)
Lemma handle_options c s :
  req_method (request c) = OPTIONS ->
  store_of (handle c s) = s /\ log_of (handle c s) = [].
Proof.
  intros Hm. unfold handle. rewrite Hm.
  destruct (route (request c)) as [e|[v kw]]; split; reflexivity.
Qed.

(** * The claims *)

Lemma required_text_error key fields e :
  AccountModel.required_text key fields = inl e -> exists m, e = DataValidationError m.
Proof.
  unfold AccountModel.required_text.
  destruct (dict_get key fields) as [[]|]; intros [= <-]; eauto.
Qed.

Lemma parse_date_joined_error now fields e :
  AccountModel.parse_date_joined now fields = inl e -> exists m, e = DataValidationError m.
Proof.
  unfold AccountModel.parse_date_joined.
  destruct (dict_get "date_joined" fields) as [[| | |d| |]|];
    try destruct (AccountModel.is_iso_date d); intros [= <-]; eauto.
Qed.

(** Validation fails with a validation error, nothing else. *)
Lemma parse_error now self d e :
  AccountModel.parse now self d = inl e -> exists m, e = DataValidationError m.
Proof.
  unfold AccountModel.parse.
  destruct d as [[| | | | |fields]|]; try (intros [= <-]; eauto; fail).
  destruct (AccountModel.required_text "name" fields) eqn:E1;
    [intros [= <-]; eauto using required_text_error|].
  destruct (AccountModel.required_text "email" fields) eqn:E2;
    [intros [= <-]; eauto using required_text_error|].
  destruct (AccountModel.required_text "address" fields) eqn:E3;
    [intros [= <-]; eauto using required_text_error|].
  destruct (AccountModel.required_text "phone_number" fields) eqn:E4;
    [intros [= <-]; eauto using required_text_error|].
  destruct (AccountModel.parse_date_joined now fields) eqn:E5;
    [intros [= <-]; eauto using parse_date_joined_error|discriminate].
Qed.

(** A payload object without one of the required keys fails validation. *)
Lemma parse_missing now self fields key :
  In key required_fields -> dict_get key fields = None ->
  exists m, AccountModel.parse now self (Some (JObj fields)) = inl (DataValidationError m).
Proof.
  intros Hin Hnone.
  destruct (AccountModel.parse now self (Some (JObj fields))) as [e|a] eqn:E.
  - destruct (parse_error _ _ _ _ E) as [m ->]. eauto.
  - exfalso. revert E. unfold AccountModel.parse.
    assert (Hk : exists m, AccountModel.required_text key fields = inl m)
      by (unfold AccountModel.required_text; rewrite Hnone; eauto).
    destruct Hk as [m Hk].
    cbn in Hin. destruct Hin as [<-|[<-|[<-|[<-|[]]]]]; rewrite Hk;
      repeat match goal with
             | |- context [match AccountModel.required_text ?k ?f with _ => _ end] =>
                 destruct (AccountModel.required_text k f)
             end; discriminate.
Qed.

(** ** Routing of non-integer identifiers *)

(** The converter's test and the property of being a decimal integer
    agree. *)
Lemma is_decimal_text x : is_decimal x = true <-> decimal_text x.
Proof.
  unfold is_decimal, decimal_text.
  destruct (chars x) as [|cp cps] eqn:E.
  - split; [discriminate | intros [H _]; now elim H].
  - rewrite forallb_forall, Forall_forall. split.
    + intros H. split; [discriminate|]. intros y Hy.
      apply list_elem_of_In, H in Hy. unfold is_digit in Hy.
      destruct (decimal y) as [d|]; [eauto | discriminate].
    + intros [_ H] y Hy. apply list_elem_of_In, H in Hy as [d Hd].
      unfold is_digit. now rewrite Hd.
Qed.

(** Claim C10.  A request on [/accounts/x] whose path segment [x] is
    not a decimal integer (a text of one or more decimal digits) matches
    no rule, whatever its method: the routing layer answers 404, no view
    function is called, the store is left as it was and no model-layer
    work is done. *)
Theorem C10_non_integer_id_not_routed (c : ctx) (s : store) (x : string) :
  req_path (request c) = ["accounts"; x] ->
  slash_free x = true ->
  ~ decimal_text x ->
  route (request c) = inl (HTTPException 404 "Not Found")
  /\ status_code (response_of (handle c s)) = 404
  /\ store_of (handle c s) = s
  /\ log_of (handle c s) = [].
Proof.
  intros Hp _ Hx.
  assert (Hd : is_decimal x = false).
  { destruct (is_decimal x) eqn:E; [|reflexivity].
    elim Hx. now apply is_decimal_text. }
  pose proof (route_account_not_int _ _ Hp (int_converter_not_decimal _ Hd)) as Hr.
  rewrite (handle_route_error c s _ Hr).
  split; [exact Hr|]. destruct (req_method (request c)); repeat split.
Qed.

(** ** Reading one account *)

(** Claim C6.  GET on [/accounts/{id}]: [find] yields the record or the
    absence value and never raises; when a record with that id is in
    the store the answer is 200 with its serialisation, otherwise it is
    404.  In both cases the cycle ends in a response and the store is
    untouched. *)
Theorem C6_read_account (c : ctx) (s : store) (seg : string) :
  req_method (request c) = GET ->
  req_path (request c) = ["accounts"; seg] ->
  is_decimal seg = true ->
  AccountModel.find (int_of_digits 0 seg) c s =
    (inr (AccountModel.lookup_row (int_of_digits 0 seg) (rows s)), s,
     [EvGet (int_of_digits 0 seg)])
  /\ store_of (handle c s) = s
  /\ match AccountModel.lookup_row (int_of_digits 0 seg) (rows s) with
     | Some a =>
         Account.id a = Some (int_of_digits 0 seg)
         /\ In a (rows s)
         /\ response_of (handle c s) =
              mkResponse 200 (BodyJson (AccountModel.serialize a)) []
     | None => status_code (response_of (handle c s)) = 404
     end.
Proof.
  intros Hm Hp Hd.
  rewrite (handle_read_account c s seg _ Hm Hp (int_converter_decimal _ Hd)).
  split; [apply find_run|]. split; [reflexivity|].
  destruct (AccountModel.lookup_row _ _) as [a|] eqn:E; [|reflexivity].
  eauto using lookup_row_id, lookup_row_In.
Qed.

(** ** Deleting *)

(** Claim C5.  DELETE on [/accounts/{id}] answers 204 with an empty
    body whether or not the account exists, and a second DELETE of the
    same id answers the same and leaves the store exactly as the first
    one left it. *)
Theorem C5_delete_idempotent (c : ctx) (s : store) (seg : string) :
  req_method (request c) = DELETE ->
  req_path (request c) = ["accounts"; seg] ->
  is_decimal seg = true ->
  response_of (handle c s) = mkResponse 204 (BodyText "") []
  /\ response_of (handle c (store_of (handle c s))) = mkResponse 204 (BodyText "") []
  /\ store_of (handle c (store_of (handle c s))) = store_of (handle c s)
  /\ AccountModel.lookup_row (int_of_digits 0 seg) (rows (store_of (handle c s))) = None.
Proof.
  intros Hm Hp Hd.
  pose proof (int_converter_decimal _ Hd) as Hn.
  rewrite !(handle_delete_account c _ seg _ Hm Hp Hn).
  unfold response_of, store_of; cbn [fst snd].
  assert (Hgone : AccountModel.lookup_row (int_of_digits 0 seg)
            (rows match AccountModel.lookup_row (int_of_digits 0 seg) (rows s) with
                  | Some _ =>
                      mkStore (AccountModel.remove_row (int_of_digits 0 seg) (rows s))
                              (next_id s)
                  | None => s
                  end) = None).
  { destruct (AccountModel.lookup_row _ (rows s)) eqn:E; [|exact E].
    apply lookup_remove_row. }
  rewrite Hgone. auto.
Qed.

(** ** Creating with an incomplete payload *)

(** Claim C8, amended.  A POST on [/accounts] whose payload object
    lacks a required field is answered 400 when it declares
    [application/json] and 415 when it does not; either way the store
    is left as it was, so the number of persisted accounts is the one
    before the request and no write happened. *)
Theorem C8_missing_field_no_write (c : ctx) (s : store)
        (fields : list (string * json)) (key : string) :
  req_method (request c) = POST ->
  req_path (request c) = ["accounts"] ->
  req_json (request c) = Some (JObj fields) ->
  In key required_fields ->
  dict_get key fields = None ->
  (req_content_type (request c) = Some "application/json" ->
     status_code (response_of (handle c s)) = 400)
  /\ (req_content_type (request c) <> Some "application/json" ->
       status_code (response_of (handle c s)) = 415)
  /\ store_of (handle c s) = s
  /\ length (rows (store_of (handle c s))) = length (rows s)
  /\ mutations (log_of (handle c s)) = 0%nat.
Proof.
  intros Hm Hp Hj Hin Hnone.
  rewrite (handle_create_accounts c s Hm Hp), Hj. cbv iota.
  destruct (parse_missing (today c) Account.new fields key Hin Hnone) as [m ->].
  destruct (routes.truthy _ && routes.eq_text _ _) eqn:E.
  - apply content_type_json in E.
    split; [intros _; reflexivity|]. split; [intros H; now elim H|].
    repeat split.
  - split; [|split; [intros _; reflexivity|repeat split]].
    intros H. apply content_type_json in H. congruence.
Qed.

(** ** Which requests change the store *)

(** Claim C9.  A GET request, on any path, leaves the store as it was
    and performs no store mutation; so does a DELETE of an id that is
    not in the store.  A POST answered 201 performed exactly one
    mutation: the validated payload was appended under the store's next
    identifier.  No PUT request is answered 200 through the route table
    (the keyword call of [update_account] fails), and none changes the
    store; the PUT part is therefore stated on the body of
    [update_account]: called on the id of a stored account with a JSON
    request whose payload passes validation, it answers 200 and
    performs exactly one mutation, which replaces that record by the
    updated one; and it returns a response in no other case. *)
Theorem C9_store_frame (c : ctx) (s : store) :
  (req_method (request c) = GET ->
     store_of (handle c s) = s /\ mutations (log_of (handle c s)) = 0%nat)
  /\ (forall seg,
        req_method (request c) = DELETE ->
        req_path (request c) = ["accounts"; seg] ->
        is_decimal seg = true ->
        AccountModel.lookup_row (int_of_digits 0 seg) (rows s) = None ->
        store_of (handle c s) = s /\ mutations (log_of (handle c s)) = 0%nat)
  /\ (req_method (request c) = POST ->
      status_code (response_of (handle c s)) = 201 ->
      mutations (log_of (handle c s)) = 1%nat
      /\ exists a,
           AccountModel.parse (today c) Account.new (req_json (request c)) = inr a
           /\ store_of (handle c s) =
                mkStore (rows s ++ [AccountModel.with_id (next_id s) a]) (next_id s + 1))
  /\ (req_method (request c) = PUT ->
      status_code (response_of (handle c s)) <> 200
      /\ store_of (handle c s) = s
      /\ mutations (log_of (handle c s)) = 0%nat)
  /\ (forall self account_id a p,
        AccountModel.lookup_row account_id (rows s) = Some a ->
        is_json (req_content_type (request c)) = true ->
        AccountModel.parse (today c) a (req_json (request c)) = inr p ->
        routes.update_account self account_id c s =
          (inr (mkResponse 200 (BodyJson (AccountModel.serialize (updated a p))) []),
           mkStore (AccountModel.replace_row (updated a p) (rows s)) (next_id s),
           [EvGet account_id; EvUpdate account_id])
        /\ mutations [EvGet account_id; EvUpdate account_id] = 1%nat
        /\ AccountModel.lookup_row account_id
             (AccountModel.replace_row (updated a p) (rows s)) = Some (updated a p))
  /\ (forall self account_id resp s' log,
        routes.update_account self account_id c s = (inr resp, s', log) ->
        exists a p,
          AccountModel.lookup_row account_id (rows s) = Some a
          /\ AccountModel.parse (today c) a (req_json (request c)) = inr p
          /\ s' = mkStore (AccountModel.replace_row (updated a p) (rows s)) (next_id s)
          /\ log = [EvGet account_id; EvUpdate account_id]
          /\ status_code resp = 200).
Proof.
  split; [|split; [|split; [|split; [|split]]]].
  - intros Hm.
    destruct (route_cases (request c)) as
      [[e He]|[[_ Hr]|[[Hg _]|[[Hg _]|[[Hg _]|[Hg _]]]]]]; try congruence.
    + rewrite (handle_route_error c s _ He), Hm. split; reflexivity.
    + destruct Hr as [Hr|[Hr|[Hr|[n Hr]]]]; unfold handle; rewrite Hr, Hm.
      * split; reflexivity.
      * split; reflexivity.
      * split; reflexivity.
      * rewrite call_read_account_view, read_account_run.
        destruct (AccountModel.lookup_row n (rows s)); split; reflexivity.
  - intros seg Hm Hp Hd Habs.
    rewrite (handle_delete_account c s seg _ Hm Hp (int_converter_decimal _ Hd)), Habs.
    split; reflexivity.
  - intros Hm.
    destruct (route_cases (request c)) as
      [[e He]|[[[Hg|Hg] _]|[[_ [Hp _]]|[[Hg _]|[[Hg _]|[Hg _]]]]]]; try congruence.
    + rewrite (handle_route_error c s _ He), Hm.
      apply match_rules_error in He as [->| ->]; discriminate.
    + rewrite (handle_create_accounts c s Hm Hp).
      destruct (_ && _); [|discriminate].
      destruct (req_json (request c)) as [v|]; [|discriminate].
      destruct (AccountModel.parse _ _ _) as [e|a] eqn:E.
      * destruct (parse_error _ _ _ _ E) as [m ->]. discriminate.
      * intros _. split; [reflexivity|]. exists a. split; reflexivity.
  - intros Hm.
    destruct (handle_put c s Hm) as [e [-> [->|[->| ->]]]];
      (split; [discriminate | split; reflexivity]).
  - intros self account_id a p Hfound Hjson Hparse.
    pose proof (lookup_row_id _ _ _ Hfound) as Hid.
    split; [|split; [reflexivity|]].
    + rewrite update_account_run, Hfound, Hjson, Hid.
      destruct (req_json (request c)) as [v|]; [|discriminate].
      now rewrite Hparse.
    + apply lookup_replace_row; [exact Hid | congruence].
  - intros self account_id resp s' log. rewrite update_account_run.
    destruct (AccountModel.lookup_row account_id (rows s)) as [a|] eqn:Hfound;
      [|discriminate].
    pose proof (lookup_row_id _ _ _ Hfound) as Hid. rewrite Hid.
    destruct (is_json _); [|discriminate].
    destruct (req_json (request c)) as [v|]; [|discriminate].
    destruct (AccountModel.parse _ _ _) as [e|p] eqn:Hparse; [discriminate|].
    intros [= <- <- <-]. exists a, p.
    split; [reflexivity|]. split; [exact Hparse|]. repeat split.
Qed.

(** ** Listing *)

(** A creating request appends one record, under the next identifier. *)
Lemma handle_creates c s a :
  creates c a ->
  handle c s =
    (created_response (AccountModel.with_id (next_id s) a),
     mkStore (rows s ++ [AccountModel.with_id (next_id s) a]) (next_id s + 1),
     [EvDeserialize; EvInsert (next_id s)]).
Proof.
  intros (Hm & Hp & Hct & Hparse).
  rewrite (handle_create_accounts c s Hm Hp).
  rewrite (proj2 (content_type_json _) Hct).
  destruct (req_json (request c)) as [v|]; [|discriminate].
  rewrite Hparse. reflexivity.
Qed.

(** Serving creating requests one after the other: the store grows by
    one record per request, each under an identifier not used before. *)
Lemma serve_creates cs : forall s,
  Forall is_create cs ->
  exists accts,
    fst (serve cs s) = map created_response accts
    /\ rows (snd (serve cs s)) = rows s ++ accts
    /\ length accts = length cs
    /\ Forall (fun a => exists i, Account.id a = Some i /\ next_id s <= i) accts
    /\ NoDup (map AccountModel.serialize accts).
Proof.
  induction cs as [|c cs IH]; intros s Hall.
  - exists []. cbn. rewrite app_nil_r. repeat split; constructor.
  - inversion Hall as [|? ? [a Ha] Hrest]; subst.
    cbn [serve]. rewrite (handle_creates c s a Ha).
    set (saved := AccountModel.with_id (next_id s) a).
    set (s1 := mkStore (rows s ++ [saved]) (next_id s + 1)).
    destruct (IH s1 Hrest) as (accts & Hresp & Hrows & Hlen & Hids & Hnd).
    destruct (serve cs s1) as [resps s2]. cbn [fst snd] in *.
    exists (saved :: accts). repeat split.
    + cbn. now rewrite Hresp.
    + rewrite Hrows. subst s1. cbn [rows]. now rewrite <- app_assoc.
    + cbn. now rewrite Hlen.
    + constructor.
      * exists (next_id s). split; [reflexivity | lia].
      * eapply Forall_impl; [exact Hids|].
        intros x (i & Hi & Hle). exists i. split; [exact Hi|].
        subst s1. cbn [next_id] in Hle. lia.
    + cbn [map]. apply NoDup_cons. split; [|exact Hnd].
      rewrite list_elem_of_In, in_map_iff. intros (x & Heq & Hin).
      apply serialize_inj in Heq. subst x.
      rewrite Forall_forall in Hids.
      apply list_elem_of_In, Hids in Hin as (i & Hi & Hle).
      subst s1 saved. cbn in Hi, Hle. injection Hi as <-. lia.
Qed.

(** Claim C7.  GET on [/accounts] answers 200 with the serialisation of
    every persisted account, in store order.  On an empty store the
    body is the empty list; after N creating requests on an empty
    store the body holds exactly N records, they are the bodies the N
    creating requests were answered with (each a 201), in order, and no
    record occurs twice. *)
Theorem C7_list_accounts (g : ctx) (s : store) (cs : list ctx) :
  req_method (request g) = GET ->
  req_path (request g) = ["accounts"] ->
  Forall is_create cs ->
  response_of (handle g s) =
    mkResponse 200 (BodyJson (JArr (map AccountModel.serialize (rows s)))) []
  /\ (rows s = [] ->
      response_of (handle g s) = mkResponse 200 (BodyJson (JArr [])) []
      /\ exists items,
           response_of (handle g (snd (serve cs s))) =
             mkResponse 200 (BodyJson (JArr items)) []
           /\ length items = length cs
           /\ NoDup items
           /\ map data (fst (serve cs s)) = map BodyJson items
           /\ Forall (fun r => status_code r = 201) (fst (serve cs s))).
Proof.
  intros Hm Hp Hall. rewrite !(handle_list_accounts g _ Hm Hp).
  split; [reflexivity|]. intros Hempty. rewrite Hempty. split; [reflexivity|].
  destruct (serve_creates cs s Hall) as (accts & Hresp & Hrows & Hlen & _ & Hnd).
  exists (map AccountModel.serialize accts).
  rewrite Hrows, Hempty, Hresp. cbn [app response_of fst].
  repeat split.
  - now rewrite length_map.
  - exact Hnd.
  - rewrite !map_map. reflexivity.
  - apply Forall_forall. intros r Hin.
    apply list_elem_of_In, in_map_iff in Hin as (a & <- & _). reflexivity.
Qed.

(** ** Updating *)

(** The body of [update_account], when it can be called: if it returns
    a response, a following read of the same id returns the same
    serialised account, new values included. *)
Lemma update_account_then_read c c' s self i resp s' log :
  routes.update_account self i c s = (inr resp, s', log) ->
  routes.read_account i c' s' = (inr resp, s', [EvGet i]).
Proof.
  rewrite update_account_run, read_account_run.
  destruct (AccountModel.lookup_row i (rows s)) as [a|] eqn:E; [|discriminate].
  pose proof (lookup_row_id _ _ _ E) as Hid. rewrite Hid.
  destruct (is_json _); [|discriminate].
  destruct (req_json (request c)) as [v|]; [|discriminate].
  destruct (AccountModel.parse _ _ _) as [e|p]; [discriminate|].
  intros [= <- <- <-]. cbn [rows].
  rewrite lookup_replace_row; [reflexivity|exact Hid|congruence].
Qed.

(** ** Content type *)

(** A POST on [/accounts] that does not declare exactly
    [application/json] is answered 415 before any model-layer work. *)
Lemma post_unsupported_media_type c s :
  req_method (request c) = POST ->
  req_path (request c) = ["accounts"] ->
  req_content_type (request c) <> Some "application/json" ->
  handle c s =
    (error_response (HTTPException 415 "Content-Type must be application/json"), s, []).
Proof.
  intros Hm Hp Hct. rewrite (handle_create_accounts c s Hm Hp).
  destruct (_ && _) eqn:E; [|reflexivity].
  apply content_type_json in E. congruence.
Qed.

(** * Further properties of the service *)

(** ** Which paths and verbs exist *)

(** Property X1.  For a path without an empty segment and not under
    [/static], the routing layer answers 404 exactly when the path is
    none of [/], [/health], [/accounts] and [/accounts/<digits>],
    whatever the verb; such a request is answered 404, reaches no
    handler and leaves the store as it was. *)
Theorem X1_not_found_iff_unknown_path (c : ctx) (s : store) :
  plain_path (req_path (request c)) = true ->
  (route (request c) = inl (HTTPException 404 "Not Found")
   <-> known_path (req_path (request c)) = false)
  /\ (known_path (req_path (request c)) = false ->
      status_code (response_of (handle c s)) = 404
      /\ store_of (handle c s) = s
      /\ log_of (handle c s) = []).
Proof.
  intros _.
  assert (H : route (request c) = inl (HTTPException 404 "Not Found")
              <-> known_path (req_path (request c)) = false).
  { rewrite route_eq. unfold known_path, int_converter.
    destruct (req_path (request c)) as [|p1 [|p2 [|p3 rest]]].
    - destruct (req_method (request c)); split; discriminate.
    - destruct (String.eqb "health" p1); [|destruct (String.eqb "accounts" p1)];
        cbn; destruct (req_method (request c)); split; (discriminate || reflexivity).
    - destruct (String.eqb "accounts" p1); [|split; reflexivity].
      destruct (is_decimal p2); cbn; [|split; reflexivity].
      destruct (req_method (request c)); split; discriminate.
    - split; reflexivity. }
  split; [exact H|].
  intros Hk. apply H in Hk. rewrite (handle_route_error c s _ Hk).
  destruct (req_method (request c)); repeat split.
Qed.

(** Property X2.  On a path some rule matches, the routing layer answers
    405 exactly when the verb is not one served on that path.  The
    verbs served are those the decorators name (GET for [/] and
    [/health], POST and GET for [/accounts], GET, PUT and DELETE for
    [/accounts/<digits>]), HEAD wherever GET is served, and OPTIONS.  A
    request with another verb is answered 405, reaches no handler and
    leaves the store as it was. *)
Theorem X2_method_not_allowed_iff (c : ctx) (s : store) :
  known_path (req_path (request c)) = true ->
  (route (request c) = inl (HTTPException 405 "Method Not Allowed")
   <-> ~ In (req_method (request c)) (served_methods (req_path (request c))))
  /\ (~ In (req_method (request c)) (served_methods (req_path (request c))) ->
      handle c s = (error_response (HTTPException 405 "Method Not Allowed"), s, [])).
Proof.
  intros Hk.
  assert (H : route (request c) = inl (HTTPException 405 "Method Not Allowed")
              <-> ~ In (req_method (request c)) (served_methods (req_path (request c)))).
  { rewrite route_eq. revert Hk. unfold known_path, served_methods, int_converter.
    destruct (req_path (request c)) as [|p1 [|p2 [|p3 rest]]]; [| | |discriminate].
    - intros _. destruct (req_method (request c)); cbn;
        intuition (discriminate || congruence).
    - destruct (String.eqb "health" p1); [|destruct (String.eqb "accounts" p1)];
        cbn; try discriminate; intros _;
        destruct (req_method (request c)); cbn;
        intuition (discriminate || congruence).
    - destruct (String.eqb "accounts" p1); [|discriminate].
      destruct (is_decimal p2); cbn; [|discriminate]. intros _.
      destruct (req_method (request c)); cbn;
        intuition (discriminate || congruence). }
  split; [exact H|].
  intros Hm. rewrite (handle_route_error c s _ (proj2 H Hm)).
  destruct (req_method (request c)) eqn:E; try reflexivity.
  elim Hm. unfold served_methods.
  destruct (req_path (request c)) as [|p1 [|p2 rest]];
    [|destruct (String.eqb "health" p1)|]; cbn; tauto.
Qed.

(** ** The probe endpoints *)

(** Property X3.  GET on [/health] and GET on [/] answer 200 with their
    fixed bodies whatever the store holds and whatever headers or body
    the request carries; neither consults nor changes the store. *)
Theorem X3_health_and_index (c : ctx) (s : store) :
  req_method (request c) = GET ->
  (req_path (request c) = ["health"] ->
   handle c s = (mkResponse 200 (BodyJson (JObj [("status", JStr "OK")])) [], s, []))
  /\ (req_path (request c) = [] ->
      handle c s =
        (mkResponse 200
           (BodyJson (JObj [("name", JStr "Account REST API Service");
                            ("version", JStr "1.0")])) [], s, [])).
Proof.
  intros Hm. split; intros Hp; unfold handle; rewrite route_eq, Hp, Hm; reflexivity.
Qed.

(** ** The content-type check *)

(** Property X4.  [check_content_type(media_type)] returns normally
    exactly when the Content-Type header is present, not empty and equal
    to [media_type] character for character; in every other case it
    aborts with 415 and the message naming [media_type].  In particular
    it always aborts for an empty [media_type], and it never touches the
    store. *)
Theorem X4_check_content_type (media_type : string) (c : ctx) (s : store) :
  (routes.check_content_type media_type c s = (inr tt, s, [])
   <-> req_content_type (request c) = Some media_type /\ media_type <> "")
  /\ (routes.check_content_type media_type c s <> (inr tt, s, []) ->
      routes.check_content_type media_type c s =
        (inl (HTTPException 415 ("Content-Type must be " ++ media_type)%string), s, [])).
Proof.
  rewrite check_content_type_run. unfold routes.truthy, routes.eq_text.
  destruct (req_content_type (request c)) as [v|]; cbn -[String.eqb].
  - destruct (String.eqb_spec v ""), (String.eqb_spec v media_type); cbn; subst;
      (split; [split; [intros H | intros [H1 H2]] | intros H]);
      try discriminate; try congruence; try reflexivity;
      try (split; congruence); try (now elim H).
  - split; [split; [discriminate | intros [H _]; discriminate] | reflexivity].
Qed.

(** Property X5.  A POST on [/accounts] whose Content-Type header is
    missing, empty or anything other than exactly [application/json]
    (a charset parameter included) is answered 415 with the same
    response whatever the payload and the store; the payload is never
    deserialised and the store is left as it was. *)
Theorem X5_post_unsupported_media_type (c : ctx) (s : store) :
  req_method (request c) = POST ->
  req_path (request c) = ["accounts"] ->
  req_content_type (request c) <> Some "application/json" ->
  response_of (handle c s) =
    error_response (HTTPException 415 "Content-Type must be application/json")
  /\ status_code (response_of (handle c s)) = 415
  /\ store_of (handle c s) = s
  /\ log_of (handle c s) = [].
Proof.
  intros Hm Hp Hct. rewrite (post_unsupported_media_type c s Hm Hp Hct).
  repeat split.
Qed.

(** ** The outcomes of a create request *)

(** Property X6.  A POST on [/accounts] has exactly three outcomes,
    decided in this order: 415 when the Content-Type is not exactly
    [application/json]; otherwise 400 when the payload fails validation
    (an absent body included); otherwise 201.  The store changes only
    in the 201 case, and then by one record appended under the store's
    next identifier; the records already there stay as they were. *)
Theorem X6_create_accounts_outcomes (c : ctx) (s : store) :
  req_method (request c) = POST ->
  req_path (request c) = ["accounts"] ->
  (status_code (response_of (handle c s)) = 415
   <-> req_content_type (request c) <> Some "application/json")
  /\ (status_code (response_of (handle c s)) = 400
      <-> req_content_type (request c) = Some "application/json"
          /\ exists e, AccountModel.parse (today c) Account.new (req_json (request c))
                       = inl e)
  /\ (status_code (response_of (handle c s)) = 201
      <-> req_content_type (request c) = Some "application/json"
          /\ exists a, AccountModel.parse (today c) Account.new (req_json (request c))
                       = inr a)
  /\ (status_code (response_of (handle c s)) <> 201 -> store_of (handle c s) = s)
  /\ (status_code (response_of (handle c s)) = 201 ->
      exists a, Account.id a = Some (next_id s)
        /\ rows (store_of (handle c s)) = rows s ++ [a]
        /\ next_id (store_of (handle c s)) = next_id s + 1
        /\ data (response_of (handle c s)) = BodyJson (AccountModel.serialize a)).
Proof.
  intros Hm Hp. rewrite (handle_create_accounts c s Hm Hp).
  destruct (routes.truthy _ && routes.eq_text _ _) eqn:E.
  - apply content_type_json in E.
    destruct (req_json (request c)) as [v|].
    + destruct (AccountModel.parse _ _ _) as [e|a] eqn:P.
      * destruct (parse_error _ _ _ _ P) as [m ->]. cbn.
        repeat split; try discriminate; try congruence; eauto.
        intros [_ [a Ha]]. discriminate.
      * cbn. repeat split; try discriminate; try congruence; eauto.
        -- intros [_ [e He]]. discriminate.
        -- intros _. exists (AccountModel.with_id (next_id s) a). repeat split.
    + cbn. repeat split; try discriminate; try congruence; eauto.
      intros [_ [a Ha]]. discriminate.
  - assert (Hne : req_content_type (request c) <> Some "application/json").
    { intros H. apply content_type_json in H. congruence. }
    cbn. repeat split; try discriminate; try congruence; eauto.
    + intros [H _]. congruence.
    + intros [H _]. congruence.
Qed.

(** ** PUT requests *)

(** Property X7.  No PUT request is served: none is answered with a
    success status, none changes the store and none does model-layer
    work.  On [/accounts/<digits>] the view is called with the keyword
    [account_id] alone, the call fails on [self] and the answer is
    500. *)
Theorem X7_put_never_served (c : ctx) (s : store) :
  req_method (request c) = PUT ->
  store_of (handle c s) = s
  /\ log_of (handle c s) = []
  /\ ~ (200 <= status_code (response_of (handle c s)) < 300)
  /\ (forall seg, req_path (request c) = ["accounts"; seg] ->
        is_decimal seg = true ->
        status_code (response_of (handle c s)) = 500).
Proof.
  intros Hm. split; [|split; [|split]].
  - destruct (handle_put c s Hm) as [e [-> _]]. reflexivity.
  - destruct (handle_put c s Hm) as [e [-> _]]. reflexivity.
  - destruct (handle_put c s Hm) as [e [-> [->|[->| ->]]]]; cbn;
      try unfold status.HTTP_500_INTERNAL_SERVER_ERROR; lia.
  - intros seg Hp Hd. unfold handle.
    rewrite (route_account_id _ seg _ Hp (int_converter_decimal _ Hd)), Hm.
    reflexivity.
Qed.

(** ** Records and identifiers *)

(** One request keeps a well-formed store well-formed and never rewinds
    the identifier sequence. *)
Lemma handle_store_ok c s :
  store_ok s ->
  store_ok (store_of (handle c s)) /\ next_id s <= next_id (store_of (handle c s)).
Proof.
  intros Hok.
  destruct (route_cases (request c)) as
    [[e He]|[[_ Hr]|[[Hm [Hp _]]|[[Hm _]|[[Hm (seg & n & Hp & Hn & _)]|[Hm _]]]]]].
  - rewrite (handle_route_error c s _ He). split; [exact Hok | apply Z.le_refl].
  - destruct Hr as [Hr|[Hr|[Hr|[n Hr]]]]; unfold handle; rewrite Hr.
    + destruct (req_method (request c)); (split; [exact Hok | apply Z.le_refl]).
    + destruct (req_method (request c)); (split; [exact Hok | apply Z.le_refl]).
    + destruct (req_method (request c)); (split; [exact Hok | apply Z.le_refl]).
    + rewrite call_read_account_view, read_account_run.
      destruct (AccountModel.lookup_row n (rows s));
        destruct (req_method (request c)); (split; [exact Hok | apply Z.le_refl]).
  - rewrite (handle_create_accounts c s Hm Hp).
    destruct (_ && _); [|split; [exact Hok | apply Z.le_refl]].
    destruct (req_json (request c)); [|split; [exact Hok | apply Z.le_refl]].
    destruct (AccountModel.parse _ _ _); [split; [exact Hok | apply Z.le_refl]|].
    split; [now apply store_ok_insert | cbn; lia].
  - destruct (handle_put c s Hm) as [e [-> _]]. split; [exact Hok | apply Z.le_refl].
  - rewrite (handle_delete_account c s seg n Hm Hp Hn).
    destruct (AccountModel.lookup_row n (rows s));
      (split; [|apply Z.le_refl]); [now apply store_ok_remove | exact Hok].
  - destruct (handle_options c s Hm) as [-> _]. split; [exact Hok | apply Z.le_refl].
Qed.

(** Property X8.  Create, then read: on a well-formed store, after a
    creating POST the account is read back at [/accounts/<new id>]; the
    GET answers 200 with exactly the body the POST was answered with,
    and the new id is the store's next identifier at the time of the
    POST. *)
Theorem X8_create_then_read (c g : ctx) (s : store) (a : Account.t) (seg : string) :
  store_ok s ->
  creates c a ->
  req_method (request g) = GET ->
  req_path (request g) = ["accounts"; seg] ->
  int_converter seg = Some (next_id s) ->
  status_code (response_of (handle c s)) = 201
  /\ data (response_of (handle c s)) =
       BodyJson (AccountModel.serialize (AccountModel.with_id (next_id s) a))
  /\ response_of (handle g (store_of (handle c s))) =
       mkResponse 200 (data (response_of (handle c s))) []
  /\ store_of (handle g (store_of (handle c s))) = store_of (handle c s).
Proof.
  intros Hok Hc Hm Hp Hn.
  rewrite (handle_creates c s a Hc). unfold response_of, store_of; cbn [fst snd].
  rewrite (handle_read_account g _ seg _ Hm Hp Hn). cbn [fst snd rows].
  rewrite lookup_row_app, (store_ok_fresh s Hok).
  unfold AccountModel.lookup_row. cbn. rewrite Z.eqb_refl. repeat split.
Qed.

(** Property X9.  DELETE on [/accounts/<id>] removes the records with
    that id and nothing else: the identifier sequence is not rewound, a
    following GET of that id answers 404, a following GET of any other
    id answers as it did before, and a following GET on [/accounts]
    lists the remaining records in their previous order. *)
Theorem X9_delete_effect (c g : ctx) (s : store) (seg : string) :
  req_method (request c) = DELETE ->
  req_path (request c) = ["accounts"; seg] ->
  is_decimal seg = true ->
  req_method (request g) = GET ->
  rows (store_of (handle c s)) = AccountModel.remove_row (int_of_digits 0 seg) (rows s)
  /\ next_id (store_of (handle c s)) = next_id s
  /\ (req_path (request g) = ["accounts"; seg] ->
      status_code (response_of (handle g (store_of (handle c s)))) = 404)
  /\ (forall seg',
        req_path (request g) = ["accounts"; seg'] ->
        is_decimal seg' = true ->
        int_of_digits 0 seg' <> int_of_digits 0 seg ->
        response_of (handle g (store_of (handle c s))) = response_of (handle g s))
  /\ (req_path (request g) = ["accounts"] ->
      response_of (handle g (store_of (handle c s))) =
        mkResponse 200
          (BodyJson (JArr (map AccountModel.serialize
                             (AccountModel.remove_row (int_of_digits 0 seg) (rows s)))))
          []).
Proof.
  intros Hm Hp Hd Hg.
  pose proof (int_converter_decimal _ Hd) as Hn.
  set (n := int_of_digits 0 seg) in *.
  assert (Hrows : rows (store_of (handle c s)) = AccountModel.remove_row n (rows s)).
  { rewrite (handle_delete_account c s seg n Hm Hp Hn). unfold store_of; cbn [fst snd].
    destruct (AccountModel.lookup_row n (rows s)) eqn:E; [reflexivity|].
    symmetry. now apply remove_row_absent. }
  split; [exact Hrows|]. split; [|split; [|split]].
  - rewrite (handle_delete_account c s seg n Hm Hp Hn). unfold store_of; cbn [fst snd].
    destruct (AccountModel.lookup_row n (rows s)); reflexivity.
  - intros Hgp. rewrite (handle_read_account g _ seg n Hg Hgp Hn).
    unfold response_of; cbn [fst]. rewrite Hrows, lookup_remove_row. reflexivity.
  - intros seg' Hgp Hd' Hne.
    pose proof (int_converter_decimal _ Hd') as Hn'.
    rewrite !(handle_read_account g _ seg' _ Hg Hgp Hn').
    unfold response_of; cbn [fst]. rewrite Hrows.
    rewrite lookup_remove_row_other; [reflexivity | congruence].
  - intros Hgp. rewrite (handle_list_accounts g _ Hg Hgp).
    unfold response_of; cbn [fst]. now rewrite Hrows.
Qed.

(** Property X10.  Whatever requests are served, in whatever order, a
    well-formed store stays well-formed: identifiers in the store remain
    pairwise distinct and below the store's sequence, and the sequence
    never moves backwards, so an identifier is not handed out twice. *)
Theorem X10_serve_keeps_store_ok (cs : list ctx) (s : store) :
  store_ok s ->
  store_ok (snd (serve cs s))
  /\ next_id s <= next_id (snd (serve cs s))
  /\ length (fst (serve cs s)) = length cs.
Proof.
  revert s. induction cs as [|c cs IH]; intros s Hok.
  - cbn. split; [exact Hok | split; [lia | reflexivity]].
  - cbn [serve].
    destruct (handle c s) as [[resp s1] log] eqn:E.
    pose proof (handle_store_ok c s Hok) as [Hok1 Hle1].
    rewrite E in Hok1, Hle1. unfold store_of in Hok1, Hle1; cbn [fst snd] in Hok1, Hle1.
    destruct (IH s1 Hok1) as (Hok2 & Hle2 & Hlen).
    destruct (serve cs s1) as [resps s2]. cbn [fst snd] in *.
    split; [exact Hok2 | split; [lia | cbn; now f_equal]].
Qed.

(** ** Identifiers in the path *)

(** Property X11.  The path segment is read as a number: zeros written
    in front of the digits do not matter.  A request on
    [/accounts/0<digits>] is answered exactly as the same request on
    [/accounts/<digits>], with the same effect on the store. *)
Theorem X11_leading_zero (m : method) (seg : string) (content_type : option string)
        (payload : option json) (day : string) (s : store) :
  is_decimal seg = true ->
  handle (mkCtx (mkRequest m ["accounts"; String "0" seg] content_type payload) day) s =
  handle (mkCtx (mkRequest m ["accounts"; seg] content_type payload) day) s.
Proof.
  intros Hd.
  pose proof (int_converter_decimal _ Hd) as Hn.
  assert (H0 : decimal 48 = Some 0) by (apply (decimal_ascii 0); lia).
  assert (Hd0 : is_decimal (String "0" seg) = true).
  { unfold is_decimal in *.
    change (chars (String "0" seg)) with (48 :: chars seg).
    destruct (chars seg) as [|cp cps]; [discriminate|].
    change (forallb is_digit (48 :: cp :: cps))
      with (is_digit 48 && forallb is_digit (cp :: cps)).
    rewrite Hd. unfold is_digit. now rewrite H0. }
  assert (Hv : int_of_digits 0 (String "0" seg) = int_of_digits 0 seg).
  { unfold int_of_digits.
    change (chars (String "0" seg)) with (48 :: chars seg).
    assert (Hz : digit_value 48 = 0) by (unfold digit_value; now rewrite H0).
    cbn [fold_left]. now rewrite Hz. }
  assert (Hn0 : int_converter (String "0" seg) = Some (int_of_digits 0 seg)).
  { rewrite <- Hv. now apply int_converter_decimal. }
  set (c0 := mkCtx (mkRequest m ["accounts"; String "0" seg] content_type payload) day).
  set (c1 := mkCtx (mkRequest m ["accounts"; seg] content_type payload) day).
  destruct m.
  - rewrite (handle_read_account c0 s _ _ eq_refl eq_refl Hn0).
    rewrite (handle_read_account c1 s _ _ eq_refl eq_refl Hn). reflexivity.
  - unfold handle.
    rewrite (route_account_id (request c0) _ _ eq_refl Hn0).
    rewrite (route_account_id (request c1) _ _ eq_refl Hn). reflexivity.
  - unfold handle.
    rewrite (route_account_id (request c0) _ _ eq_refl Hn0).
    rewrite (route_account_id (request c1) _ _ eq_refl Hn). reflexivity.
  - rewrite (handle_delete_account c0 s _ _ eq_refl eq_refl Hn0).
    rewrite (handle_delete_account c1 s _ _ eq_refl eq_refl Hn). reflexivity.
  - unfold handle.
    rewrite (route_account_id (request c0) _ _ eq_refl Hn0).
    rewrite (route_account_id (request c1) _ _ eq_refl Hn). reflexivity.
  - unfold handle.
    rewrite (route_account_id (request c0) _ _ eq_refl Hn0).
    rewrite (route_account_id (request c1) _ _ eq_refl Hn).
    cbn [req_method request c0 c1].
    rewrite !call_read_account_view, !read_account_run.
    destruct (AccountModel.lookup_row _ _); reflexivity.
  - unfold handle.
    rewrite (route_account_id (request c0) _ _ eq_refl Hn0).
    rewrite (route_account_id (request c1) _ _ eq_refl Hn). reflexivity.
Qed.

End General.

(** * The claims at concrete requests

    From here on the digit table is that of Unicode 14.0. *)

#[export] Existing Instance unicode_14.

Section Evaluated.
Import flask app.

(** ** Path segments that are and are not integers *)

(** A segment of digits other than the ASCII ones is an integer for the
    converter: GET on [/accounts/] followed by ARABIC-INDIC DIGIT ONE
    reads account 1. *)
Lemma unicode_digit_segment_routed :
  is_decimal "١" = true
  /\ route (request cases.get_arabic) = inr (read_account_view, [("account_id", 1)])
  /\ response_of (handle cases.get_arabic sample.alice_store) =
       mkResponse 200 (BodyJson (AccountModel.serialize sample.alice_row)) [].
Proof. repeat split. Qed.

Lemma C10_non_integer_id_not_routed_witness :
  slash_free "abc" = true
  /\ ~ decimal_text "abc"
  /\ route (request sample.get_word) = inl (HTTPException 404 "Not Found")
  /\ status_code (response_of (handle sample.get_word sample.alice_store)) = 404
  /\ store_of (handle sample.get_word sample.alice_store) = sample.alice_store
  /\ log_of (handle sample.get_word sample.alice_store) = [].
Proof.
  assert (Hx : ~ decimal_text "abc").
  { intros [_ H]. inversion H as [|cp cps [d Hd] _]. discriminate Hd. }
  exact (conj eq_refl
           (conj Hx (C10_non_integer_id_not_routed sample.get_word sample.alice_store
                       "abc" eq_refl eq_refl Hx))).
Defined.

(** ** Reading, deleting, creating *)

Lemma C6_read_account_witness :
  response_of (handle sample.get_alice sample.alice_store) =
    mkResponse 200 (BodyJson (AccountModel.serialize sample.alice_row)) []
  /\ status_code (response_of (handle sample.get_alice sample.empty_store)) = 404.
Proof.
  split.
  - exact (proj2 (proj2 (proj2 (proj2
             (C6_read_account sample.get_alice sample.alice_store "1"
                eq_refl eq_refl eq_refl))))).
  - exact (proj2 (proj2
             (C6_read_account sample.get_alice sample.empty_store "1"
                eq_refl eq_refl eq_refl))).
Defined.

Lemma C5_delete_idempotent_witness :
  response_of (handle sample.delete_alice sample.alice_store)
    = mkResponse 204 (BodyText "") []
  /\ store_of (handle sample.delete_alice sample.alice_store) = mkStore [] 2
  /\ store_of (handle sample.delete_alice
                 (store_of (handle sample.delete_alice sample.alice_store)))
     = store_of (handle sample.delete_alice sample.alice_store)
  /\ response_of (handle sample.delete_missing sample.alice_store)
     = mkResponse 204 (BodyText "") [].
Proof.
  pose proof (C5_delete_idempotent sample.delete_alice sample.alice_store "1"
                eq_refl eq_refl eq_refl) as [H1 [_ [H3 _]]].
  pose proof (C5_delete_idempotent sample.delete_missing sample.alice_store "999"
                eq_refl eq_refl eq_refl) as [H4 _].
  exact (conj H1 (conj eq_refl (conj H3 H4))).
Defined.

(** Claim C8, as stated, at a concrete request: a POST on [/accounts]
    whose payload lacks [name] but which declares [text/html] is
    answered 415, not 400. *)
Lemma C8_missing_field_counterexample :
  req_method (request sample.post_nameless_html) = POST
  /\ req_path (request sample.post_nameless_html) = ["accounts"]
  /\ req_json (request sample.post_nameless_html) = Some sample.nameless
  /\ dict_get "name" [("email", JStr "a@x.com"); ("address", JStr "1 Main St");
                      ("phone_number", JStr "555-0100")] = None
  /\ status_code (response_of (handle sample.post_nameless_html sample.alice_store)) = 415
  /\ status_code (response_of (handle sample.post_nameless_html sample.alice_store)) <> 400.
Proof. repeat split. discriminate. Qed.

Lemma C8_missing_field_no_write_witness :
  status_code (response_of (handle sample.post_nameless sample.alice_store)) = 400
  /\ store_of (handle sample.post_nameless sample.alice_store) = sample.alice_store
  /\ length (rows (store_of (handle sample.post_nameless sample.alice_store))) = 1%nat.
Proof.
  pose proof (C8_missing_field_no_write sample.post_nameless sample.alice_store
                _ "name" eq_refl eq_refl eq_refl (or_introl eq_refl) eq_refl)
    as [H1 [_ [H3 [H4 _]]]].
  exact (conj (H1 eq_refl) (conj H3 H4)).
Defined.

Lemma C9_store_frame_witness :
  store_of (handle sample.get_list sample.alice_store) = sample.alice_store
  /\ store_of (handle sample.delete_missing sample.alice_store) = sample.alice_store
  /\ mutations (log_of (handle sample.post_alice sample.empty_store)) = 1%nat
  /\ store_of (handle sample.put_renamed sample.alice_store) = sample.alice_store
  /\ routes.update_account 0 1 sample.put_renamed sample.alice_store =
       (inr (mkResponse 200 (BodyJson (AccountModel.serialize sample.renamed_row)) []),
        mkStore [sample.renamed_row] 2, [EvGet 1; EvUpdate 1]).
Proof.
  pose proof (C9_store_frame sample.get_list sample.alice_store) as [Hget _].
  pose proof (C9_store_frame sample.delete_missing sample.alice_store)
    as [_ [Hdel _]].
  pose proof (C9_store_frame sample.post_alice sample.empty_store)
    as [_ [_ [Hpost _]]].
  pose proof (C9_store_frame sample.put_renamed sample.alice_store)
    as [_ [_ [_ [Hput [Hupd _]]]]].
  refine (conj (proj1 (Hget eq_refl))
            (conj (proj1 (Hdel "999" eq_refl eq_refl eq_refl eq_refl))
               (conj (proj1 (Hpost eq_refl eq_refl))
                  (conj (proj1 (proj2 (Hput eq_refl))) _)))).
  exact (proj1 (Hupd 0 1 sample.alice_row sample.renamed_row eq_refl eq_refl eq_refl)).
Defined.

Lemma C7_list_accounts_witness :
  response_of (handle sample.get_list sample.empty_store) =
    mkResponse 200 (BodyJson (JArr [])) []
  /\ exists items,
       response_of (handle sample.get_list
                      (snd (serve [sample.post_alice; sample.post_alice]
                                  sample.empty_store))) =
         mkResponse 200 (BodyJson (JArr items)) []
       /\ length items = 2%nat
       /\ NoDup items.
Proof.
  assert (Hc : is_create sample.post_alice)
    by (eexists; repeat split; reflexivity).
  destruct (C7_list_accounts sample.get_list sample.empty_store
              [sample.post_alice; sample.post_alice] eq_refl eq_refl
              (@List.Forall_cons _ _ _ _ Hc
                 (@List.Forall_cons _ _ _ _ Hc (@List.Forall_nil _ _))))
    as [_ H].
  destruct (H eq_refl) as [H0 (items & H1 & H2 & H3 & _)].
  exact (conj H0 (ex_intro _ items (conj H1 (conj H2 H3)))).
Defined.

(** ** Updating *)

(** Claim C1, evaluated.  The store holds account 1 and a PUT on
    [/accounts/1] carries a full valid payload with a new name.  The
    request is routed to [update_account] with the keyword
    [account_id] only, the call cannot bind the parameter [self], and
    the answer is 500; the store is unchanged and a following GET still
    returns the old name.  Called with both arguments, the body of
    [update_account] does answer 200 with the new values and persists
    them. *)
Theorem C1_put_valid_payload :
  route (request sample.put_renamed) = inr (update_account_view, [("account_id", 1)])
  /\ view_params update_account_view = ["self"; "account_id"]
  /\ handle sample.put_renamed sample.alice_store =
       (error_response
          (PyError "TypeError" "update_account() missing a required positional argument"),
        sample.alice_store, [])
  /\ status_code (response_of (handle sample.put_renamed sample.alice_store)) = 500
  /\ response_of (handle sample.get_alice
                    (store_of (handle sample.put_renamed sample.alice_store))) =
       mkResponse 200 (BodyJson (AccountModel.serialize sample.alice_row)) []
  /\ routes.update_account 0 1 sample.put_renamed sample.alice_store =
       (inr (mkResponse 200 (BodyJson (AccountModel.serialize sample.renamed_row)) []),
        mkStore [sample.renamed_row] 2, [EvGet 1; EvUpdate 1]).
Proof. repeat split. Qed.

(** Claim C4, evaluated.  No account 999 is in the store and a PUT on
    [/accounts/999] arrives: the answer is 500, not 404, for the same
    reason as above; the store is unchanged.  Called with both
    arguments, the body of [update_account] does abort with 404 and
    leaves the store as it was. *)
Theorem C4_put_absent_id :
  AccountModel.lookup_row 999 (rows sample.alice_store) = None
  /\ status_code (response_of (handle sample.put_missing sample.alice_store)) = 500
  /\ store_of (handle sample.put_missing sample.alice_store) = sample.alice_store
  /\ routes.update_account 0 999 sample.put_missing sample.alice_store =
       (inl (HTTPException 404 "Account with id [999] could not be found."),
        sample.alice_store, [EvGet 999]).
Proof. repeat split. Qed.

(** ** Creating and the Location header *)

(** Claim C2, evaluated.  A POST on [/accounts] with a valid payload on
    an empty store is answered 201 with the serialised account, store
    identifier 1 included, and the record is persisted; the Location
    header is the fixed text [/], which routes to the index view,
    whereas the new account is read at [/accounts/1]. *)
Theorem C2_create_location :
  handle sample.post_alice sample.empty_store =
    (mkResponse 201 (BodyJson (AccountModel.serialize sample.alice_row))
                [("Location", "/")],
     sample.alice_store, [EvDeserialize; EvInsert 1])
  /\ Account.id sample.alice_row = Some 1
  /\ headers (response_of (handle sample.post_alice sample.empty_store)) =
       [("Location", "/")]
  /\ route (request sample.get_index) = inr (index_view, [])
  /\ route (request sample.get_alice) = inr (read_account_view, [("account_id", 1)]).
Proof. repeat split. Qed.

(** ** Content type *)

(** Claim C3, evaluated.  A POST declaring [text/html] is answered 415
    with no model-layer work.  A PUT on [/accounts/999] declaring
    [text/html] is answered 500; and the body of [update_account],
    called with both arguments, never looks at the content type: it
    asks the store for the account first and aborts with 404. *)
Theorem C3_put_content_type :
  handle sample.post_alice_html sample.alice_store =
    (error_response (HTTPException 415 "Content-Type must be application/json"),
     sample.alice_store, [])
  /\ req_content_type (request sample.put_html_missing) = Some "text/html"
  /\ status_code (response_of (handle sample.put_html_missing sample.alice_store)) = 500
  /\ routes.update_account 0 999 sample.put_html_missing sample.alice_store =
       (inl (HTTPException 404 "Account with id [999] could not be found."),
        sample.alice_store, [EvGet 999]).
Proof. repeat split. Qed.

(** ** The further properties at concrete requests *)

Lemma X1_not_found_iff_unknown_path_witness :
  status_code (response_of (handle cases.put_deep cases.two_store)) = 404
  /\ store_of (handle cases.put_deep cases.two_store) = cases.two_store
  /\ log_of (handle cases.put_deep cases.two_store) = [].
Proof.
  exact (proj2 (X1_not_found_iff_unknown_path cases.put_deep cases.two_store eq_refl)
           eq_refl).
Defined.

Lemma X2_method_not_allowed_iff_witness :
  handle cases.delete_collection cases.two_store =
    (error_response (HTTPException 405 "Method Not Allowed"), cases.two_store, [])
  /\ handle cases.patch_bob cases.two_store =
       (error_response (HTTPException 405 "Method Not Allowed"), cases.two_store, [])
  /\ route (request cases.head_list) <> inl (HTTPException 405 "Method Not Allowed")
  /\ route (request cases.options_list) <> inl (HTTPException 405 "Method Not Allowed").
Proof.
  pose proof (X2_method_not_allowed_iff cases.delete_collection cases.two_store eq_refl)
    as [_ Hdel].
  pose proof (X2_method_not_allowed_iff cases.patch_bob cases.two_store eq_refl)
    as [_ Hpatch].
  pose proof (X2_method_not_allowed_iff cases.head_list cases.two_store eq_refl)
    as [Hhead _].
  pose proof (X2_method_not_allowed_iff cases.options_list cases.two_store eq_refl)
    as [Hopt _].
  refine (conj (Hdel _) (conj (Hpatch _) (conj _ _))).
  - cbn. intros [H|[H|[H|[H|[]]]]]; discriminate H.
  - cbn. intros [H|[H|[H|[H|[H|[]]]]]]; discriminate H.
  - intros H. apply Hhead in H. apply H. cbn. tauto.
  - intros H. apply Hopt in H. apply H. cbn. tauto.
Defined.

Lemma X3_health_and_index_witness :
  handle cases.get_health cases.two_store =
    (mkResponse 200 (BodyJson (JObj [("status", JStr "OK")])) [], cases.two_store, []).
Proof.
  exact (proj1 (X3_health_and_index cases.get_health cases.two_store eq_refl) eq_refl).
Defined.

Lemma X5_post_unsupported_media_type_witness :
  status_code (response_of (handle cases.post_bob_charset cases.two_store)) = 415
  /\ store_of (handle cases.post_bob_charset cases.two_store) = cases.two_store
  /\ log_of (handle cases.post_bob_charset cases.two_store) = [].
Proof.
  refine (proj2 (X5_post_unsupported_media_type cases.post_bob_charset cases.two_store
                   eq_refl eq_refl _)).
  discriminate.
Defined.

Lemma X6_create_accounts_outcomes_witness :
  status_code (response_of (handle cases.post_bob sample.alice_store)) = 201
  /\ status_code (response_of (handle cases.post_no_body sample.alice_store)) = 400
  /\ store_of (handle cases.post_no_body sample.alice_store) = sample.alice_store.
Proof.
  pose proof (X6_create_accounts_outcomes cases.post_bob sample.alice_store
                eq_refl eq_refl) as [_ [_ [H201 _]]].
  pose proof (X6_create_accounts_outcomes cases.post_no_body sample.alice_store
                eq_refl eq_refl) as [_ [H400 [_ [Hsame _]]]].
  refine (conj (proj2 H201 (conj eq_refl (ex_intro _ _ eq_refl)))
            (conj (proj2 H400 (conj eq_refl (ex_intro _ _ eq_refl))) (Hsame _))).
  discriminate.
Defined.

Lemma X7_put_never_served_witness :
  store_of (handle sample.put_renamed cases.two_store) = cases.two_store
  /\ log_of (handle sample.put_renamed cases.two_store) = []
  /\ status_code (response_of (handle sample.put_renamed cases.two_store)) = 500
  /\ ~ (200 <= status_code (response_of (handle cases.put_deep cases.two_store)) < 300).
Proof.
  pose proof (X7_put_never_served sample.put_renamed cases.two_store eq_refl)
    as [H1 [H2 [_ H3]]].
  pose proof (X7_put_never_served cases.put_deep cases.two_store eq_refl)
    as [_ [_ [H4 _]]].
  exact (conj H1 (conj H2 (conj (H3 "1" eq_refl eq_refl) H4))).
Defined.

Lemma X8_create_then_read_witness :
  status_code (response_of (handle cases.post_bob sample.alice_store)) = 201
  /\ response_of (handle cases.get_bob
                    (store_of (handle cases.post_bob sample.alice_store))) =
       mkResponse 200 (BodyJson (AccountModel.serialize cases.bob_row)) [].
Proof.
  assert (Hok : store_ok sample.alice_store).
  { split; cbn.
    - constructor; [|constructor]. exists 1. split; [reflexivity | lia].
    - apply NoDup_singleton. }
  assert (Hc : creates cases.post_bob
                 (Account.mk None "Bob" "b@x.com" "2 Side St" "555-0101" "2020-02-29"))
    by (repeat split).
  pose proof (X8_create_then_read cases.post_bob cases.get_bob sample.alice_store
                _ "2" Hok Hc eq_refl eq_refl eq_refl) as [H1 [_ [H3 _]]].
  exact (conj H1 H3).
Defined.

Lemma X9_delete_effect_witness :
  rows (store_of (handle sample.delete_alice cases.two_store)) = [cases.bob_row]
  /\ status_code (response_of (handle sample.get_alice
                                 (store_of (handle sample.delete_alice cases.two_store))))
       = 404
  /\ response_of (handle cases.get_bob
                    (store_of (handle sample.delete_alice cases.two_store)))
       = response_of (handle cases.get_bob cases.two_store).
Proof.
  pose proof (X9_delete_effect sample.delete_alice sample.get_alice cases.two_store "1"
                eq_refl eq_refl eq_refl eq_refl) as [H1 [_ [H3 _]]].
  pose proof (X9_delete_effect sample.delete_alice cases.get_bob cases.two_store "1"
                eq_refl eq_refl eq_refl eq_refl) as [_ [_ [_ [H4 _]]]].
  refine (conj H1 (conj (H3 eq_refl) (H4 "2" eq_refl eq_refl _))).
  discriminate.
Defined.

Lemma X10_serve_keeps_store_ok_witness :
  store_ok (snd (serve [sample.post_alice; sample.delete_alice; cases.post_bob;
                        sample.put_renamed; cases.get_deep] sample.empty_store))
  /\ 1 <= next_id (snd (serve [sample.post_alice; sample.delete_alice; cases.post_bob;
                               sample.put_renamed; cases.get_deep] sample.empty_store)).
Proof.
  assert (Hok : store_ok sample.empty_store) by (split; constructor).
  pose proof (X10_serve_keeps_store_ok
                [sample.post_alice; sample.delete_alice; cases.post_bob;
                 sample.put_renamed; cases.get_deep] sample.empty_store Hok)
    as [H1 [H2 _]].
  exact (conj H1 H2).
Defined.

Lemma X11_leading_zero_witness :
  handle cases.get_bob_padded cases.two_store = handle cases.get_bob cases.two_store
  /\ status_code (response_of (handle cases.get_bob_padded cases.two_store)) = 200.
Proof.
  split.
  - transitivity (handle (sample.req GET ["accounts"; "02"] None None) cases.two_store).
    + exact (X11_leading_zero GET "02" None None sample.day cases.two_store eq_refl).
    + exact (X11_leading_zero GET "2" None None sample.day cases.two_store eq_refl).
  - reflexivity.
Defined.

End Evaluated.

